(** * Solaar configuration store: a shallow embedding of
      [lib/solaar/configuration.py] and the properties checked against it.

    The module keeps one process-wide document [_config] (a Python list whose
    element 0 is a version string and whose other elements are
    [_DeviceEntry] dictionaries), loads it lazily from [config.yaml] or the
    legacy [config.json], matches live devices against the stored entries
    ([persister]) and writes the document back, possibly through a
    single-shot timer ([save] / [do_save]).

    Modelling choices.
    - Python values are the trees that [yaml.safe_load] and [json.load]
      build from: [None], booleans, integers, strings, lists and
      dictionaries.  Floating-point numbers, byte strings and timestamps are
      outside the model, and so are documents that share one object between
      two places (YAML anchors).
    - Strings are ASCII text.  On ASCII text [split_colon], [py_int_of_str]
      and the order on keys are those of [str.split], [int] and [<]; the
      digits and white space that [int] accepts beyond ASCII are outside the
      model.
    - A dictionary is an association list in insertion order, as a Python
      [dict] is; keys are compared with Python's [==] on hashable scalars
      (so [True] and [1] are the same key).
    - A [_DeviceEntry] stored in [_config] is referred to by its index in
      the list: [persister] returns that index, and in-place mutation of the
      entry is a list update at the index.
    - Exceptions are explicit: a function that can raise returns a
      [result]. *)

From stdpp Require Import base list strings.
From Stdlib Require Import ZArith Ascii String.

Set Warnings "-register-all".

Local Open Scope string_scope.
Local Open Scope Z_scope.

(** ** Python values *)

(** The two dictionary classes of the module: the built-in [dict] and its
    subclass [_DeviceEntry]. *)
Inductive dict_class : Type :=
  | PlainDict
  | _DeviceEntry.

Inductive pyval : Type :=
  | PNone
  | PBool (b : bool)
  | PInt (z : Z)
  | PStr (s : string)
  | PList (l : list pyval)
  | PDict (c : dict_class) (items : list (pyval * pyval)).

Abbreviation pydict := (list (pyval * pyval)).

Inductive exn : Type :=
  | AttributeError
  | TypeError
  | ValueError
  | KeyError
  | IndexError
  | AssertionError.

(** The outcome of a call that may raise. *)
Inductive result (A : Type) : Type :=
  | Ok (a : A)
  | Raise (e : exn).
Arguments Ok {A} a.
Arguments Raise {A} e.

#[global] Instance result_ret : MRet result := fun _ a => Ok a.
#[global] Instance result_bind : MBind result := fun _ _ f m =>
  match m with
  | Ok a => f a
  | Raise e => Raise e
  end.
#[global] Instance result_fmap : FMap result := fun _ _ f m =>
  match m with
  | Ok a => Ok (f a)
  | Raise e => Raise e
  end.

(** Truth value of an object in a condition ([if x:], [x and y], [not x]). *)
Definition truthy (v : pyval) : bool :=
  match v with
  | PNone => false
  | PBool b => b
  | PInt z => negb (z =? 0)
  | PStr s => negb (String.eqb s "")
  | PList l => match l with [] => false | _ :: _ => true end
  | PDict _ items => match items with [] => false | _ :: _ => true end
  end.

(** [==] on the hashable scalars; [bool] is a subclass of [int], so
    [True == 1] and [False == 0]. *)
Definition scalar_eq (a b : pyval) : bool :=
  match a, b with
  | PNone, PNone => true
  | PBool x, PBool y => Bool.eqb x y
  | PBool x, PInt y => (if x then 1 else 0) =? y
  | PInt x, PBool y => x =? (if y then 1 else 0)
  | PInt x, PInt y => x =? y
  | PStr x, PStr y => String.eqb x y
  | _, _ => false
  end.

(** ** Dictionaries *)

(** The value stored under a key, if any. *)
Fixpoint dict_lookup (k : pyval) (d : pydict) : option pyval :=
  match d with
  | [] => None
  | (k', v) :: r => if scalar_eq k k' then Some v else dict_lookup k r
  end.

(** [d.get(k)]: the value, or [None]. *)
Definition dict_get (d : pydict) (k : pyval) : pyval :=
  default PNone (dict_lookup k d).

(** [k in d]. *)
Definition dict_contains (d : pydict) (k : pyval) : bool :=
  match dict_lookup k d with Some _ => true | None => false end.

(** [dict.__setitem__(d, k, v)]: an existing key keeps its position (and its
    key object), a new key goes to the end. *)
Fixpoint dict_setitem (k v : pyval) (d : pydict) : pydict :=
  match d with
  | [] => [(k, v)]
  | (k', v') :: r =>
      if scalar_eq k k' then (k', v) :: r else (k', v') :: dict_setitem k v r
  end.

(** [d.pop(k, None)], for its effect on [d]. *)
Fixpoint dict_pop (k : pyval) (d : pydict) : pydict :=
  match d with
  | [] => []
  | (k', v') :: r => if scalar_eq k k' then r else (k', v') :: dict_pop k r
  end.

(** [==] on values: lists element by element, dictionaries of either class
    as mappings (same size, each key of the left bound to an equal value on
    the right), scalars by [scalar_eq]. *)
Fixpoint py_eq (a b : pyval) {struct a} : bool :=
  match a, b with
  | PList l1, PList l2 =>
      (fix eq_list (xs ys : list pyval) {struct xs} : bool :=
         match xs, ys with
         | [], [] => true
         | x :: xs', y :: ys' => py_eq x y && eq_list xs' ys'
         | _, _ => false
         end) l1 l2
  | PDict _ d1, PDict _ d2 =>
      Nat.eqb (List.length d1) (List.length d2) &&
      (fix eq_items (d : pydict) : bool :=
         match d with
         | [] => true
         | (k, v) :: r =>
             match dict_lookup k d2 with
             | Some v' => py_eq v v'
             | None => false
             end && eq_items r
         end) d1
  | _, _ => scalar_eq a b
  end.

(** [isinstance(v, dict)], [isinstance(v, _DeviceEntry)], [isinstance(v, str)],
    [isinstance(v, int)] (true of booleans too). *)
Definition is_dict (v : pyval) : bool :=
  match v with PDict _ _ => true | _ => false end.

Definition is_DeviceEntry (v : pyval) : bool :=
  match v with PDict _DeviceEntry _ => true | _ => false end.

Definition is_str (v : pyval) : bool :=
  match v with PStr _ => true | _ => false end.

Definition is_int (v : pyval) : bool :=
  match v with PInt _ | PBool _ => true | _ => false end.

(** ** Strings and integers *)

(** [s.split(":")]. *)
Fixpoint split_colon (s : string) : list string :=
  match s with
  | EmptyString => [""]
  | String c r =>
      if Ascii.eqb c ":" then "" :: split_colon r
      else match split_colon r with
           | h :: t => String c h :: t
           | [] => [String c ""]
           end
  end.

(** [s.startswith("_")]. *)
Definition startswith_underscore (s : string) : bool :=
  match s with
  | String c _ => Ascii.eqb c "_"
  | EmptyString => false
  end.

(** The white space that [int] skips around an ASCII literal: tab, line
    feed, vertical tab, form feed, carriage return and space. *)
Definition is_space (c : ascii) : bool :=
  let n := nat_of_ascii c in
  ((9 <=? n) && (n <=? 13) || (n =? 32))%nat.

Definition is_digit (c : ascii) : bool :=
  let n := nat_of_ascii c in ((48 <=? n) && (n <=? 57))%nat.

Definition digit_value (c : ascii) : Z := Z.of_nat (nat_of_ascii c - 48).

(** The digits of a decimal literal, where single underscores may separate
    digits; [after_digit] tells whether the previous character was a digit. *)
Fixpoint digits_value (cs : list ascii) (acc : Z) (after_digit : bool) : option Z :=
  match cs with
  | [] => if after_digit then Some acc else None
  | c :: r =>
      if is_digit c then digits_value r (acc * 10 + digit_value c) true
      else if Ascii.eqb c "_" && after_digit then digits_value r acc false
      else None
  end.

Definition strip (cs : list ascii) : list ascii :=
  let drop_spaces := fix go (l : list ascii) : list ascii :=
    match l with
    | c :: r => if is_space c then go r else l
    | [] => []
    end in
  rev (drop_spaces (rev (drop_spaces cs))).

(** The interpreter's limit on the number of digits of a decimal literal that
    [int] converts ([sys.get_int_max_str_digits()], 4300 unless configured
    otherwise). *)
Definition int_max_str_digits : nat := 4300.

(** The digits of a literal, counted as [int] counts them against the limit:
    leading zeros count, underscores do not. *)
Definition count_digits (cs : list ascii) : nat :=
  List.length (List.filter is_digit cs).

(** The value of an unsigned literal, if it is well formed and within the
    limit. *)
Definition unsigned_value (cs : list ascii) : option Z :=
  if (count_digits cs <=? int_max_str_digits)%nat then digits_value cs 0 false else None.

(** [int(s)] for an ASCII string [s]: surrounding white space, an optional
    sign, decimal digits; every failure is a [ValueError]. *)
Definition py_int_of_str (s : string) : result Z :=
  let signed :=
    match strip (list_ascii_of_string s) with
    | c :: r =>
        if Ascii.eqb c "-" then Z.opp <$> unsigned_value r
        else if Ascii.eqb c "+" then unsigned_value r
        else unsigned_value (c :: r)
    | [] => None
    end in
  match signed with
  | Some z => Ok z
  | None => Raise ValueError
  end.

(** [int(v)]. *)
Definition py_int (v : pyval) : result Z :=
  match v with
  | PBool b => Ok (if b then 1 else 0)
  | PInt z => Ok z
  | PStr s => py_int_of_str s
  | PNone | PList _ | PDict _ _ => Raise TypeError
  end.

(** [container[k] = v] where [k] is an integer. *)
Definition py_setitem (container : pyval) (k : Z) (v : pyval) : result pyval :=
  match container with
  | PDict c d => Ok (PDict c (dict_setitem (PInt k) v d))
  | PList l =>
      let n := Z.of_nat (List.length l) in
      if (0 <=? k) && (k <? n) then Ok (PList (<[Z.to_nat k := v]> l))
      else if (- n <=? k) && (k <? 0) then Ok (PList (<[Z.to_nat (k + n) := v]> l))
      else Raise IndexError
  | PNone | PBool _ | PInt _ | PStr _ => Raise TypeError
  end.

(** ** Keys of a stored record *)

Definition _KEY_VERSION : string := "_version".
Definition _KEY_NAME : string := "_NAME".
Definition _KEY_WPID : string := "_wpid".
Definition _KEY_SERIAL : string := "_serial".
Definition _KEY_MODEL_ID : string := "_modelId".
Definition _KEY_UNIT_ID : string := "_unitId".
Definition _KEY_ABSENT : string := "_absent".
Definition _KEY_SENSITIVE : string := "_sensitive".

(** ** The legacy converter [_convert_json] *)

(** [{int(dk) if isinstance(dk, str) else dk: dv for dk, dv in v.items()}],
    built left to right into [acc]. *)
Fixpoint convert_subkeys (items acc : pydict) : result pydict :=
  match items with
  | [] => Ok acc
  | (dk, dv) :: r =>
      k ← match dk with
          | PStr s => PInt <$> py_int_of_str s
          | _ => Ok dk
          end;
      convert_subkeys r (dict_setitem k dv acc)
  end.

(** [for k, v in dev.items(): ...; dev[k] = v]: the items are visited in
    order, and each visit rebinds the key in [dev]. *)
Fixpoint convert_settings (items dev : pydict) : result pydict :=
  match items with
  | [] => Ok dev
  | (k, v) :: r =>
      v' ← match k, v with
           | PStr s, PDict _ sub =>
               if negb (startswith_underscore s)
               then PDict PlainDict <$> convert_subkeys sub []
               else Ok v
           | _, _ => Ok v
           end;
      convert_settings r (dict_setitem k v' dev)
  end.

(** [for k in [...]: v = dev.get(k, None); if v is True or v is False: dev.pop(k)]. *)
Fixpoint drop_legacy_booleans (ks : list string) (dev : pydict) : pydict :=
  match ks with
  | [] => dev
  | k :: r =>
      drop_legacy_booleans r
        match dict_get dev (PStr k) with
        | PBool _ => dict_pop (PStr k) dev
        | _ => dev
        end
  end.

(** The body of the [if len(key) == 2:] branch, for [key = [key0, key1]]. *)
Definition convert_device (key0 key1 : string) (dev : pyval) : result pyval :=
  match dev with
  | PDict c d =>
      let wpid := dict_get d (PStr _KEY_WPID) in
      let d := dict_setitem (PStr _KEY_WPID) (if truthy wpid then wpid else PStr key0) d in
      let serial := dict_get d (PStr _KEY_SERIAL) in
      let d := dict_setitem (PStr _KEY_SERIAL) (if truthy serial then serial else PStr key1) d in
      d ← convert_settings d d;
      let d := drop_legacy_booleans ["mouse-gestures"; "dpi-sliding"] d in
      let d :=
        if dict_contains d (PStr "_name")
        then dict_pop (PStr "_name") (dict_setitem (PStr _KEY_NAME) (dict_get d (PStr "_name")) d)
        else d in
      Ok (PDict c d)
  | _ => Raise AttributeError
  end.

(** [for key, dev in json_dict.items(): ...], appending to [config]. *)
Fixpoint convert_items (items : pydict) (config : list pyval) : result (list pyval) :=
  match items with
  | [] => Ok config
  | (key, dev) :: rest =>
      match key with
      | PStr s =>
          match split_colon s with
          | [key0; key1] =>
              dev' ← convert_device key0 key1 dev;
              convert_items rest (config ++ [dev'])
          | _ => convert_items rest config
          end
      | _ => Raise AttributeError
      end
  end.

Definition _convert_json (json_dict : pyval) : result (list pyval) :=
  match json_dict with
  | PDict _ items => convert_items items [dict_get items (PStr _KEY_VERSION)]
  | _ => Raise AttributeError
  end.

(** ** Parsing a loaded document *)

(** The value [_device_entry_from_config_dict] stores under [_sensitive]
    when the loaded record has none. *)
Definition default_sensitive : pyval :=
  PDict PlainDict
    [(PStr "hires-smooth-resolution", PStr "ignore");
     (PStr "hires-smooth-invert", PStr "ignore");
     (PStr "hires-scroll-mode", PStr "ignore")].

(** [if legacy: divert[int(legacy)] = code], for the object [divert]. *)
Definition inject_divert (legacy divert : pyval) (code : Z) : result pyval :=
  if truthy legacy
  then i ← py_int legacy; py_setitem divert i (PInt code)
  else Ok divert.

(** A key that can be passed as a keyword argument to
    [_DeviceEntry.__init__(self, **kwargs)]: a string other than the name of
    the first parameter, [self]. *)
Definition is_keyword (k : pyval) : bool :=
  match k with
  | PStr s => negb (String.eqb s "self")
  | _ => false
  end.

(** The constructor call of [_DeviceEntry] with the items of [data] as
    keyword arguments: a key that is not a string, or that is ["self"], is a
    [TypeError]. *)
Definition new_DeviceEntry (data : pydict) : result pyval :=
  if forallb (fun kv => is_keyword kv.1) data
  then Ok (PDict _DeviceEntry data)
  else Raise TypeError.

Definition _device_entry_from_config_dict (data : pydict)
    (discard_derived_properties : bool) : result pyval :=
  let divert := dict_get data (PStr "divert-keys") in
  data ←
    (if truthy divert then
       let sliding := dict_get data (PStr "dpi-sliding") in
       divert ← inject_divert sliding divert 3;
       let data := dict_pop (PStr "dpi-sliding") data in
       let gestures := dict_get data (PStr "mouse-gestures") in
       divert ← inject_divert gestures divert 2;
       let data := dict_pop (PStr "mouse-gestures") data in
       match divert with
       | PDict _ items =>
           Ok (dict_setitem (PStr "divert-keys")
                 (PDict PlainDict (List.filter (fun kv => is_int kv.1) items)) data)
       | _ => Raise AttributeError
       end
     else Ok data);
  let data :=
    match dict_get data (PStr _KEY_SENSITIVE) with
    | PNone => dict_setitem (PStr _KEY_SENSITIVE) default_sensitive data
    | _ => data
    end in
  let data :=
    if discard_derived_properties
    then dict_pop (PStr "_battery") (dict_pop (PStr _KEY_ABSENT) data)
    else data in
  new_DeviceEntry data.

(** [loaded_config[0]]. *)
Definition py_first (v : pyval) : result pyval :=
  match v with
  | PList (x :: _) => Ok x
  | PList [] => Raise IndexError
  | PStr (String c _) => Ok (PStr (String c ""))
  | PStr EmptyString => Raise IndexError
  | PDict _ d =>
      match dict_lookup (PInt 0) d with
      | Some x => Ok x
      | None => Raise KeyError
      end
  | PNone | PBool _ | PInt _ => Raise TypeError
  end.

(** The elements that [for device in loaded_config[1:]] visits. *)
Definition py_rest (v : pyval) : result (list pyval) :=
  match v with
  | PList l => Ok (tail l)
  | PStr s => Ok ((fun c => PStr (String c "")) <$> tail (list_ascii_of_string s))
  | PNone | PBool _ | PInt _ | PDict _ _ => Raise TypeError
  end.

Section Configuration.

(** The version of the running application, [solaar.__version__]; the
    module imports it. *)
Variable __version__ : string.

(** The [for] loop of [_parse_config].  [parsed_config] is a list that the
    loop appends to, so what was appended before an exception is still there
    when the handler runs: the loop yields the list and the exception, if
    any.  A record that is not a dictionary fails the [assert]. *)
Fixpoint parse_devices (discard_derived_properties : bool) (devices parsed_config : list pyval)
    : list pyval * option exn :=
  match devices with
  | [] => (parsed_config, None)
  | device :: rest =>
      match device with
      | PDict _ data =>
          match _device_entry_from_config_dict data discard_derived_properties with
          | Ok entry =>
              parse_devices discard_derived_properties rest (parsed_config ++ [entry])
          | Raise e => (parsed_config, Some e)
          end
      | _ => (parsed_config, Some AssertionError)
      end
  end.

(** The [try] block of [_parse_config]: the list [parsed_config] as the block
    leaves it, and the exception that ended the block, if one did. *)
Definition parse_config_try (loaded_config : pyval) : list pyval * option exn :=
  let current_version := PStr __version__ in
  let parsed_config := [current_version] in
  if negb (truthy loaded_config) then (parsed_config, None)
  else
    match py_first loaded_config with
    | Raise e => (parsed_config, Some e)
    | Ok loaded_version =>
        let discard_derived_properties := negb (py_eq loaded_version current_version) in
        match py_rest loaded_config with
        | Raise e => (parsed_config, Some e)
        | Ok devices => parse_devices discard_derived_properties devices parsed_config
        end
    end.

(** [_parse_config]: an exception is logged as a warning and the function
    returns [parsed_config] all the same. *)
Definition _parse_config (loaded_config : pyval) : list pyval :=
  (parse_config_try loaded_config).1.

(** The exception that [_parse_config] logs, if any. *)
Definition parse_config_warning (loaded_config : pyval) : option exn :=
  (parse_config_try loaded_config).2.

End Configuration.

(** ** The module state and its surroundings *)

(** What is at a path of the file system: nothing, a file that cannot be
    opened or deserialised, or a file holding a document. *)
Inductive file : Type :=
  | NoFile
  | Unreadable
  | Content (v : pyval).

(** The module globals [_config], [save_timer] and [defer_saves], with what
    the module reaches outside itself: the [threading.Timer] objects that
    were started and have neither been cancelled nor fired ([timers], each
    named by a number), the two configuration files and their directory, and
    the calls of [save] made so far ([save_calls], the [defer] argument of
    each, latest first). *)
Record world : Type := World {
  _config : list pyval;
  save_timer : option nat;
  defer_saves : bool;
  timers : list nat;
  next_timer : nat;
  yaml_file : file;
  json_file : file;
  dir_exists : bool;
  makedirs_ok : bool;
  writable : bool;
  save_calls : list bool
}.

Definition set_config (c : list pyval) (w : world) : world :=
  World c (save_timer w) (defer_saves w) (timers w) (next_timer w) (yaml_file w)
    (json_file w) (dir_exists w) (makedirs_ok w) (writable w) (save_calls w).

Definition set_timer (t : option nat) (ts : list nat) (n : nat) (w : world) : world :=
  World (_config w) t (defer_saves w) ts n (yaml_file w)
    (json_file w) (dir_exists w) (makedirs_ok w) (writable w) (save_calls w).

Definition set_yaml_file (f : file) (w : world) : world :=
  World (_config w) (save_timer w) (defer_saves w) (timers w) (next_timer w) f
    (json_file w) (dir_exists w) (makedirs_ok w) (writable w) (save_calls w).

Definition set_dir_exists (b : bool) (w : world) : world :=
  World (_config w) (save_timer w) (defer_saves w) (timers w) (next_timer w) (yaml_file w)
    (json_file w) b (makedirs_ok w) (writable w) (save_calls w).

Definition log_save_call (defer : bool) (w : world) : world :=
  World (_config w) (save_timer w) (defer_saves w) (timers w) (next_timer w) (yaml_file w)
    (json_file w) (dir_exists w) (makedirs_ok w) (writable w) (defer :: save_calls w).

(** The integer that a key of class [int] or [bool] stands for. *)
Definition int_of_key (k : pyval) : Z :=
  match k with
  | PInt z => z
  | PBool b => if b then 1 else 0
  | _ => 0
  end.

(** [a < b] on keys of one kind: strings in the order of their characters,
    integers and booleans as numbers. *)
Definition key_lt (a b : pyval) : bool :=
  match a, b with
  | PStr x, PStr y => String.ltb x y
  | (PInt _ | PBool _), (PInt _ | PBool _) => int_of_key a <? int_of_key b
  | _, _ => false
  end.

(** The place of an item in a list of items sorted by key: after the items
    with a smaller key. *)
Fixpoint insert_item (x : pyval * pyval) (l : pydict) : pydict :=
  match l with
  | [] => [x]
  | y :: r => if key_lt y.1 x.1 then y :: insert_item x r else x :: l
  end.

(** [sorted(mapping.items())] as [represent_mapping] calls it ([sort_keys] is
    true by default): the items in the order of their keys when the keys are
    all strings or all integers; otherwise the comparison of two keys raises
    [TypeError], which [represent_mapping] catches, and the items keep their
    order.  (The keys of a dictionary are different, so two items are never
    compared by their values.) *)
Definition sort_items (l : pydict) : pydict :=
  if forallb (fun kv => is_str kv.1) l || forallb (fun kv => is_int kv.1) l
  then foldr insert_item [] l
  else l.

(** A value as [yaml.safe_load] gives it back after [yaml.dump]: every
    mapping, [_DeviceEntry] or not, is a plain dictionary with its items
    sorted, and so on inside lists and dictionaries. *)
Fixpoint dump_value (v : pyval) : pyval :=
  match v with
  | PList l => PList (List.map dump_value l)
  | PDict _ items =>
      PDict PlainDict
        (sort_items (List.map (fun kv => match kv with (k, x) => (k, dump_value x) end) items))
  | _ => v
  end.

(** What [yaml.dump] writes for the document, as the value that
    [yaml.safe_load] reads from the file. *)
Definition dumped (config : list pyval) : pyval :=
  PList (List.map dump_value config).

(** [do_save]: under the lock, cancel and forget the timer, then write the
    document; a failing write is logged only. *)
Definition do_save (w : world) : world :=
  let w :=
    match save_timer w with
    | Some t => set_timer None (List.filter (fun t' => negb (Nat.eqb t' t)) (timers w)) (next_timer w) w
    | None => w
    end in
  if dir_exists w && writable w
  then set_yaml_file (Content (dumped (_config w))) w
  else w.

(** [save(defer)]. *)
Definition save (defer : bool) (w : world) : world :=
  let w := log_save_call defer w in
  match _config w with
  | [] => w
  | _ :: _ =>
      if negb (dir_exists w) && negb (makedirs_ok w) then w
      else
        let w := set_dir_exists true w in
        if negb defer || negb (defer_saves w) then do_save w
        else
          match save_timer w with
          | Some _ => w
          | None =>
              let t := next_timer w in
              set_timer (Some t) (t :: timers w) (S t) w
          end
  end.

(** A started timer reaches its delay: it is no longer pending, and its
    thread is about to call [do_save] (a separate step, since the thread
    has to take the lock first). *)
Definition timer_wakes (t : nat) (w : world) : world :=
  set_timer (save_timer w) (List.filter (fun t' => negb (Nat.eqb t' t)) (timers w)) (next_timer w) w.

(** ** [_DeviceEntry] *)

(** An attribute of a device that holds a string or [None]. *)
Definition of_attr (a : option string) : pyval :=
  match a with
  | Some s => PStr s
  | None => PNone
  end.

(** [_DeviceEntry.update]: every assignment goes through
    [super().__setitem__], the item assignment of [dict]. *)
Definition update_field (key : string) (value : option string) (self : pydict) : pydict :=
  if truthy (of_attr value) && negb (py_eq (of_attr value) (dict_get self (PStr key)))
  then dict_setitem (PStr key) (of_attr value) self
  else self.

Definition update (name wpid serial modelId unitId : option string) (self : pydict) : pydict :=
  let self := update_field _KEY_NAME name self in
  let self := update_field _KEY_WPID wpid self in
  let self := update_field _KEY_SERIAL serial self in
  let self := update_field _KEY_MODEL_ID modelId self in
  update_field _KEY_UNIT_ID unitId self.

(** The entry that is element [i] of [_config], as a dictionary. *)
Definition entry_at (i : nat) (w : world) : pydict :=
  match _config w !! i with
  | Some (PDict _ d) => d
  | _ => []
  end.

(** A change of the items of the entry at index [i], in place. *)
Definition mutate_entry (i : nat) (f : pydict → pydict) (w : world) : world :=
  set_config (<[i := PDict _DeviceEntry (f (entry_at i w))]> (_config w)) w.

(** [entry.update(name, wpid, serial, modelId, unitId)] for the entry at
    index [i] of [_config]. *)
Definition _DeviceEntry_update (name wpid serial modelId unitId : option string)
    (i : nat) (w : world) : world :=
  mutate_entry i (update name wpid serial modelId unitId) w.

(** [entry[key] = value] for the entry at index [i]: [_DeviceEntry.__setitem__]
    assigns and then calls [save(defer=True)]. *)
Definition _DeviceEntry__setitem__ (key value : pyval) (i : nat) (w : world) : world :=
  save true (mutate_entry i (dict_setitem key value) w).

(** [self.get(_KEY_SENSITIVE, {})]. *)
Definition sensitives_of (self : pydict) : pyval :=
  default (PDict PlainDict []) (dict_lookup (PStr _KEY_SENSITIVE) self).

(** [get_sensitivity(name)]: [.get(name, False)] on the value stored under
    [_sensitive]; a stored value that is not a dictionary has no [get]. *)
Definition get_sensitivity (name : string) (self : pydict) : result pyval :=
  match sensitives_of self with
  | PDict _ sensitives => Ok (default (PBool false) (dict_lookup (PStr name) sensitives))
  | _ => Raise AttributeError
  end.

(** [set_sensitivity(name, value)] for the entry at index [i]: when the
    stored policy differs, the dictionary of policies is changed in place and
    assigned again under [_sensitive] through [__setitem__]. *)
Definition set_sensitivity (name : string) (value : pyval) (i : nat) (w : world)
    : result world :=
  match sensitives_of (entry_at i w) with
  | PDict c sensitives =>
      if negb (py_eq (dict_get sensitives (PStr name)) value)
      then Ok (_DeviceEntry__setitem__ (PStr _KEY_SENSITIVE)
                 (PDict c (dict_setitem (PStr name) value sensitives)) i w)
      else Ok w
  | _ => Raise AttributeError
  end.

(** ** [persister] *)

Module Device.

(** The attributes of a device that [persister] reads: strings or [None],
    and the [online] flag. *)
Record t : Type := Make {
  name : option string;
  _name : option string;
  wpid : option string;
  serial : option string;
  _serial : option string;
  modelId : option string;
  unitId : option string;
  online : bool
}.

End Device.

Definition zero_id : string := "000000000000".

(** The inner function [match] of [persister]. *)
Definition match_ (wpid serial modelId unitId : option string) (c : pydict) : bool :=
  (truthy (of_attr wpid) && py_eq (of_attr wpid) (dict_get c (PStr _KEY_WPID))
   && truthy (of_attr serial) && py_eq (of_attr serial) (dict_get c (PStr _KEY_SERIAL)))
  || (truthy (of_attr modelId) && py_eq (of_attr modelId) (dict_get c (PStr _KEY_MODEL_ID))
      && truthy (of_attr unitId) && py_eq (of_attr unitId) (dict_get c (PStr _KEY_UNIT_ID))).

(** The values [persister] binds to its local variables [modelId] and
    [unitId]. *)
Definition persister_modelId (device : Device.t) : option string :=
  if negb (py_eq (of_attr (Device.modelId device)) (PStr zero_id))
  then Device.modelId device
  else if truthy (of_attr (Device.modelId device)) then Device._name device
  else None.

Definition persister_unitId (device : Device.t) : option string :=
  if negb (py_eq (of_attr (Device.modelId device)) (PStr zero_id))
  then Device.unitId device
  else if truthy (of_attr (Device.unitId device)) then Device._serial device
  else None.

(** The loop [for c in _config: if isinstance(c, _DeviceEntry) and match(...): entry = c; break],
    from index [i] on: the index of the entry it stops at. *)
Fixpoint find_entry (wpid serial modelId unitId : option string) (config : list pyval)
    (i : nat) : option nat :=
  match config with
  | [] => None
  | c :: rest =>
      match c with
      | PDict _DeviceEntry d =>
          if match_ wpid serial modelId unitId d then Some i
          else find_entry wpid serial modelId unitId rest (S i)
      | _ => find_entry wpid serial modelId unitId rest (S i)
      end
  end.

Section Store.

(** [solaar.__version__] again. *)
Variable __version__ : string.

(** [_load]: read [config.yaml], or else the legacy [config.json] through
    [_convert_json], and parse the result into [_config]. *)
Definition _load (w : world) : result world :=
  loaded_config ←
    match yaml_file w, json_file w with
    | Content v, _ => Ok v
    | Unreadable, _ => Ok (PList [])
    | NoFile, Content v => PList <$> _convert_json v
    | NoFile, Unreadable => PList <$> _convert_json (PList [])
    | NoFile, NoFile => Ok (PList [])
    end;
  Ok (set_config (_parse_config __version__ loaded_config) w).

(** [if not _config: _load()]. *)
Definition ensure_loaded (w : world) : result world :=
  match _config w with
  | [] => _load w
  | _ :: _ => Ok w
  end.

(** [persister(device)]: the index in [_config] of the entry returned, or
    [None], and the state left behind. *)
Definition persister (device : Device.t) (w : world) : result (option nat * world) :=
  w ← ensure_loaded w;
  let modelId := persister_modelId device in
  let unitId := persister_unitId device in
  let entry :=
    find_entry (Device.wpid device) (Device._serial device) modelId unitId (_config w) 0 in
  let entry :=
    match entry with
    | Some i => if truthy (PDict _DeviceEntry (entry_at i w)) then Some i else None
    | None => None
    end in
  match entry with
  | None =>
      if negb (Device.online device) then Ok (None, w)
      else
        let i := List.length (_config w) in
        let w := set_config (_config w ++ [PDict _DeviceEntry []]) w in
        Ok (Some i,
            _DeviceEntry_update (Device.name device) (Device.wpid device)
              (Device.serial device) modelId unitId i w)
  | Some i =>
      Ok (Some i,
          _DeviceEntry_update (Device.name device) (Device.wpid device)
            (Device.serial device) modelId unitId i w)
  end.

End Store.

(** ** Auxiliary notions for the properties *)

(** A field is settled when [update] would not assign it. *)
Definition settled (key : string) (value : option string) (self : pydict) : Prop :=
  truthy (of_attr value) && negb (py_eq (of_attr value) (dict_get self (PStr key))) = false.

(** [len(key.split(":")) == 2] for a key of the legacy document. *)
Definition has_two_parts (key : pyval) : bool :=
  match key with
  | PStr s => Nat.eqb (List.length (split_colon s)) 2
  | _ => false
  end.

(** The entry that [_convert_json] appends for an item of the legacy
    document whose key has two parts. *)
Definition converted_from (item : pyval * pyval) (dev' : pyval) : Prop :=
  ∃ s key0 key1,
    item.1 = PStr s ∧ split_colon s = [key0; key1]
    ∧ convert_device key0 key1 item.2 = Ok dev'.

(** The identity pair ([a], [b]) is the pair stored under [ka], [kb] in the
    record [c], and neither is empty. *)
Definition pair_stored (a b : option string) (ka kb : string) (c : pydict) : Prop :=
  ∃ x y, a = Some x ∧ b = Some y ∧ x ≠ "" ∧ y ≠ ""
         ∧ dict_get c (PStr ka) = PStr x ∧ dict_get c (PStr kb) = PStr y.

(** The operations on the write scheduler: a call of [save], a call of
    [do_save] (from [save] or from the thread of a timer), the expiry of a
    timer, and an item assignment on a stored entry. *)
Inductive op : Type :=
  | OpSave (defer : bool)
  | OpDoSave
  | OpTimerWakes (t : nat)
  | OpSetitem (key value : pyval) (i : nat).

Definition run_op (o : op) (w : world) : world :=
  match o with
  | OpSave defer => save defer w
  | OpDoSave => do_save w
  | OpTimerWakes t => timer_wakes t w
  | OpSetitem key value i => _DeviceEntry__setitem__ key value i w
  end.

Definition run_ops (ops : list op) (w : world) : world :=
  foldl (fun w o => run_op o w) w ops.

(** No timer is pending, or the only pending one is the one that
    [save_timer] refers to. *)
Definition at_most_one_pending (w : world) : Prop :=
  timers w = [] ∨ ∃ t, save_timer w = Some t ∧ timers w = [t].

(** The keys of a dictionary are pairwise different, as they are in every
    Python [dict]. *)
Fixpoint unique_keys (d : pydict) : Prop :=
  match d with
  | [] => True
  | (k, _) :: r => dict_lookup k r = None ∧ unique_keys r
  end.

(** A loaded document whose records, if it is a list, have pairwise
    different keys. *)
Definition well_keyed (loaded_config : pyval) : Prop :=
  match loaded_config with
  | PList l => Forall (fun v => match v with PDict _ d => unique_keys d | _ => True end) l
  | _ => True
  end.

(** A record in the form [_device_entry_from_config_dict] leaves alone:
    string keys other than ["self"], a [_sensitive] value, and, when
    [divert-keys] is non-empty,
    a plain dictionary with integer keys there and no legacy setting. *)
Definition normal_entry (d : pydict) : Prop :=
  forallb (fun kv => is_keyword kv.1) d = true
  ∧ dict_get d (PStr _KEY_SENSITIVE) ≠ PNone
  ∧ (truthy (dict_get d (PStr "divert-keys")) = true →
     dict_lookup (PStr "dpi-sliding") d = None
     ∧ dict_lookup (PStr "mouse-gestures") d = None
     ∧ ∃ items, dict_lookup (PStr "divert-keys") d = Some (PDict PlainDict items)
                ∧ forallb (fun kv => is_int kv.1) items = true).


(** The items of a record as they are read back from the file. *)
Definition dump_items (d : pydict) : pydict :=
  sort_items (List.map (fun kv => match kv with (k, x) => (k, dump_value x) end) d).


(** A change of the values of the items that keeps the keys. *)
Definition keeps_keys (g : pyval * pyval → pyval * pyval) : Prop := ∀ x, (g x).1 = x.1.

(** No item of the list has a key smaller than the key of the item before
    it. *)
Fixpoint key_sorted (l : pydict) : Prop :=
  match l with
  | x :: (y :: _) as r => key_lt y.1 x.1 = false ∧ key_sorted r
  | _ => True
  end.


(** The device has a pair of non-empty attributes that [match] can use. *)
Definition identifiable (device : Device.t) : bool :=
  truthy (of_attr (Device.wpid device)) && truthy (of_attr (Device._serial device))
  || truthy (of_attr (persister_modelId device)) && truthy (of_attr (persister_unitId device)).

(** The operations of a burst of item assignments: (key, value, index). *)
Definition assignments (l : list (pyval * pyval * nat)) : list op :=
  (fun a => OpSetitem a.1.1 a.1.2 a.2) <$> l.

(** The state after the first deferred assignment of a burst. *)
Definition burst_state (t : nat) (yf : file) (w : world) : Prop :=
  defer_saves w = true ∧ save_timer w = Some t ∧ timers w = [t]
  ∧ next_timer w = S t ∧ yaml_file w = yf ∧ _config w ≠ [] ∧ dir_exists w = true.

(** No timer is set or pending, saves are not deferred, and [n] timers
    were created so far. *)
Definition undeferred_state (n : nat) (w : world) : Prop :=
  defer_saves w = false ∧ save_timer w = None ∧ timers w = [] ∧ next_timer w = n.

(** The file [config.yaml] cannot be written: it cannot be opened for
    writing, or its directory is missing and cannot be created. *)
Definition unwritable (w : world) : Prop :=
  writable w = false ∨ (dir_exists w = false ∧ makedirs_ok w = false).

(** The string holds no colon. *)
Fixpoint no_colon (s : string) : bool :=
  match s with
  | EmptyString => true
  | String c r => negb (Ascii.eqb c ":") && no_colon r
  end.

(** ** Example inputs *)

(** A state whose document is loaded and holds no record; saves may be
    deferred. *)
Definition empty_store : world :=
  World [PStr "1.1.11"] None true [] 0 NoFile NoFile true true true [].

(** A state with one stored record. *)
Definition one_mouse_store : world :=
  World [PStr "1.1.11";
         PDict _DeviceEntry [(PStr "_NAME", PStr "Mouse"); (PStr "_wpid", PStr "4082");
                             (PStr "_serial", PStr "AB12CD34")]]
    None true [] 0 NoFile NoFile true true true [].

(** A keyboard that reports an all-zero modelId. *)
Definition zero_keyboard : Device.t :=
  Device.Make (Some "Keyboard K1") (Some "Keyboard K1") None (Some "S123") (Some "S123")
    (Some "000000000000") (Some "1A2B3C4D") true.

(** A device with a proper modelId and an all-zero unitId. *)
Definition zero_unit_mouse : Device.t :=
  Device.Make (Some "Mouse M1") (Some "Mouse M1") None (Some "S777") (Some "S777")
    (Some "B01234567890") (Some "000000000000") true.

(** A device that is not reachable and was never stored. *)
Definition offline_trackball : Device.t :=
  Device.Make (Some "Trackball") (Some "Trackball") (Some "406F") (Some "FFEE0011")
    (Some "FFEE0011") None None false.

(** A state whose only record was stored for a keyboard with an all-zero
    modelId: it has the keyboard's name and serial as [_modelId] and
    [_unitId]. *)
Definition keyboard_store : world :=
  World [PStr "1.1.11";
         PDict _DeviceEntry [(PStr "_NAME", PStr "Mouse"); (PStr "_wpid", PStr "4082");
                             (PStr "_serial", PStr "AB12CD34")];
         PDict _DeviceEntry [(PStr "_NAME", PStr "Keyboard K1");
                             (PStr "_modelId", PStr "Keyboard K1");
                             (PStr "_unitId", PStr "S123")]]
    None true [] 0 NoFile NoFile true true true [].

(** * Properties *)

(** ** Dictionaries with string keys *)

Lemma scalar_eq_str_l (k : string) (k' : pyval) :
  scalar_eq (PStr k) k' = true → k' = PStr k.
Proof.
  destruct k'; simpl; try discriminate.
  intros H. apply String.eqb_eq in H. by subst.
Qed.

Lemma scalar_eq_str_refl (k : string) : scalar_eq (PStr k) (PStr k) = true.
Proof. simpl. apply String.eqb_refl. Qed.

Lemma py_eq_str_l (s : string) (v : pyval) :
  py_eq (PStr s) v = true ↔ v = PStr s.
Proof.
  split.
  - apply scalar_eq_str_l.
  - intros ->. apply scalar_eq_str_refl.
Qed.

Lemma dict_lookup_setitem_eq (k : string) (v : pyval) (d : pydict) :
  dict_lookup (PStr k) (dict_setitem (PStr k) v d) = Some v.
Proof.
  induction d as [|[k' v'] d IH]; cbn [dict_setitem dict_lookup].
  - by rewrite scalar_eq_str_refl.
  - destruct (scalar_eq (PStr k) k') eqn:E; cbn [dict_lookup]; rewrite E; done.
Qed.

Lemma dict_lookup_setitem_ne (k k' : string) (v : pyval) (d : pydict) :
  k ≠ k' → dict_lookup (PStr k') (dict_setitem (PStr k) v d) = dict_lookup (PStr k') d.
Proof.
  intros Hne. induction d as [|[k1 v1] d IH]; cbn [dict_setitem dict_lookup].
  - destruct (scalar_eq (PStr k') (PStr k)) eqn:E; [|done].
    apply scalar_eq_str_l in E. congruence.
  - destruct (scalar_eq (PStr k) k1) eqn:E; cbn [dict_lookup].
    + apply scalar_eq_str_l in E. subst k1.
      destruct (scalar_eq (PStr k') (PStr k)) eqn:E'; [|done].
      apply scalar_eq_str_l in E'. congruence.
    + by rewrite IH.
Qed.

Lemma dict_get_setitem_eq (k : string) (v : pyval) (d : pydict) :
  dict_get (dict_setitem (PStr k) v d) (PStr k) = v.
Proof. unfold dict_get. by rewrite dict_lookup_setitem_eq. Qed.

Lemma dict_get_setitem_ne (k k' : string) (v : pyval) (d : pydict) :
  k ≠ k' → dict_get (dict_setitem (PStr k) v d) (PStr k') = dict_get d (PStr k').
Proof. intros. unfold dict_get. by rewrite dict_lookup_setitem_ne. Qed.

(** ** [_DeviceEntry.update] *)

Lemma update_field_settled key value self :
  settled key value (update_field key value self).
Proof.
  unfold settled, update_field.
  destruct (truthy (of_attr value) && negb (py_eq (of_attr value) (dict_get self (PStr key))))
    eqn:E; [|done].
  rewrite dict_get_setitem_eq.
  destruct value as [s|]; [|done].
  cbn [of_attr]. rewrite (proj2 (py_eq_str_l s (PStr s)) eq_refl).
  by rewrite andb_false_r.
Qed.

Lemma update_field_get_ne key key' value self :
  key ≠ key' →
  dict_get (update_field key value self) (PStr key') = dict_get self (PStr key').
Proof.
  intros Hne. unfold update_field.
  destruct (_ && _); [|done]. by apply dict_get_setitem_ne.
Qed.

Lemma settled_update_field_ne key key' value value' self :
  key ≠ key' → settled key' value' self → settled key' value' (update_field key value self).
Proof. intros Hne. unfold settled. by rewrite update_field_get_ne. Qed.

Lemma settled_no_change key value self :
  settled key value self → update_field key value self = self.
Proof. unfold settled, update_field. by intros ->. Qed.

Lemma settled_get key (s : string) self :
  s ≠ "" → settled key (Some s) self → dict_get self (PStr key) = PStr s.
Proof.
  unfold settled. cbn [of_attr truthy]. intros Hs H.
  destruct (String.eqb s "") eqn:E; [apply String.eqb_eq in E; done|].
  cbn [negb andb] in H. apply negb_false_iff in H. by apply py_eq_str_l.
Qed.

Lemma update_settles name wpid serial modelId unitId self :
  let self' := update name wpid serial modelId unitId self in
  settled _KEY_NAME name self' ∧ settled _KEY_WPID wpid self' ∧
  settled _KEY_SERIAL serial self' ∧ settled _KEY_MODEL_ID modelId self' ∧
  settled _KEY_UNIT_ID unitId self'.
Proof.
  unfold update; cbn zeta.
  repeat split;
    repeat first
      [ apply update_field_settled
      | apply settled_update_field_ne; [discriminate|] ].
Qed.

Lemma update_idempotent name wpid serial modelId unitId self :
  update name wpid serial modelId unitId (update name wpid serial modelId unitId self)
  = update name wpid serial modelId unitId self.
Proof.
  destruct (update_settles name wpid serial modelId unitId self) as (H1 & H2 & H3 & H4 & H5).
  cbn zeta in *.
  set (self' := update name wpid serial modelId unitId self) in *.
  unfold update.
  rewrite (settled_no_change _ _ _ H1), (settled_no_change _ _ _ H2),
    (settled_no_change _ _ _ H3), (settled_no_change _ _ _ H4).
  by apply settled_no_change.
Qed.

Lemma entry_at_mutate i f w c d :
  _config w !! i = Some (PDict c d) → entry_at i (mutate_entry i f w) = f d.
Proof.
  intros H. unfold entry_at, mutate_entry. cbn [_config set_config].
  rewrite list_lookup_insert_eq; [|by eapply lookup_lt_Some].
  unfold entry_at. by rewrite H.
Qed.

Lemma mutate_entry_idempotent i f w :
  (∀ d, f (f d) = f d) → mutate_entry i f (mutate_entry i f w) = mutate_entry i f w.
Proof.
  intros Hf. unfold mutate_entry, set_config, entry_at; cbn. f_equal.
  destruct (decide (i < List.length (_config w))%nat) as [Hlt|Hge].
  - rewrite list_lookup_insert_eq by done.
    by rewrite Hf, list_insert_insert_eq.
  - by rewrite !(list_insert_ge (_config w)) by lia.
Qed.

(** The assignment hook of [_DeviceEntry] does call [save], deferred. *)
Lemma setitem_requests_save key value i w :
  save_calls (_DeviceEntry__setitem__ key value i w) = true :: save_calls w.
Proof.
  unfold _DeviceEntry__setitem__, save, do_save.
  repeat (case_match; cbn); done.
Qed.

(** ** Evaluations on small inputs *)

Example split_colon_examples :
  split_colon "AABB:12345" = ["AABB"; "12345"]
  ∧ split_colon "_version" = ["_version"]
  ∧ split_colon "a:b:c" = ["a"; "b"; "c"]
  ∧ split_colon ":" = [""; ""].
Proof. repeat split. Qed.

Example py_int_of_str_examples :
  py_int_of_str "195" = Ok 195
  ∧ py_int_of_str " -1_0 " = Ok (-10)
  ∧ py_int_of_str "1__0" = Raise ValueError
  ∧ py_int_of_str "x" = Raise ValueError
  ∧ py_int_of_str "" = Raise ValueError.
Proof. repeat split. Qed.

(** [int] skips the six ASCII white-space characters only, and refuses a
    literal of more than 4300 digits. *)
Example py_int_of_str_limits :
  py_int_of_str (String (ascii_of_nat 9) "7") = Ok 7
  ∧ py_int_of_str (String (ascii_of_nat 28) "7") = Raise ValueError
  ∧ py_int_of_str (string_of_list_ascii (repeat "0"%char 4300)) = Ok 0
  ∧ py_int_of_str (string_of_list_ascii (repeat "0"%char 4301)) = Raise ValueError.
Proof. repeat split; vm_compute; reflexivity. Qed.

(** A record with the key ["self"] cannot be made a [_DeviceEntry]: the
    parser stops there. *)
Example parse_config_self_key :
  _parse_config "1.1.11"
    (PList [PStr "1.1.11"; PDict PlainDict [(PStr "self", PInt 1)]]) = [PStr "1.1.11"]
  ∧ parse_config_warning "1.1.11"
      (PList [PStr "1.1.11"; PDict PlainDict [(PStr "self", PInt 1)]]) = Some TypeError.
Proof. split; reflexivity. Qed.

(** The file holds every mapping with its keys sorted, when they can be
    compared. *)
Example dumped_example :
  dumped [PStr "1.1.11";
          PDict _DeviceEntry
            [(PStr "b", PInt 1);
             (PStr "a", PDict PlainDict [(PInt 3, PInt 1); (PInt 1, PInt 2); (PBool false, PInt 0)]);
             (PStr "_x", PDict PlainDict [(PStr "z", PInt 1); (PInt 2, PInt 3)])]]
  = PList [PStr "1.1.11";
           PDict PlainDict
             [(PStr "_x", PDict PlainDict [(PStr "z", PInt 1); (PInt 2, PInt 3)]);
              (PStr "a", PDict PlainDict [(PBool false, PInt 0); (PInt 1, PInt 2); (PInt 3, PInt 1)]);
              (PStr "b", PInt 1)]].
Proof. reflexivity. Qed.

(** Keys with one part and with three parts leave nothing in the converted
    document; string sub-keys of a setting become integers. *)
Example convert_json_drops_other_keys :
  _convert_json
    (PDict PlainDict
       [(PStr "4082:AB12:x", PDict PlainDict [(PStr "dpi", PInt 800)]);
        (PStr "4082:AB12", PDict PlainDict
           [(PStr "divert-keys", PDict PlainDict [(PStr "195", PInt 1)])]);
        (PStr "orphan", PDict PlainDict [(PStr "dpi", PInt 1600)])])
  = Ok [PNone;
        PDict PlainDict
          [(PStr "divert-keys", PDict PlainDict [(PInt 195, PInt 1)]);
           (PStr "_wpid", PStr "4082"); (PStr "_serial", PStr "AB12")]].
Proof. reflexivity. Qed.

(** A version change discards [_absent]; a legacy [dpi-sliding] becomes a
    [divert-keys] entry and string keys of [divert-keys] are removed. *)
Example parse_config_example :
  _parse_config "1.1.11"
    (PList [PStr "1.1.10";
            PDict PlainDict
              [(PStr "_NAME", PStr "Mouse"); (PStr "_absent", PBool true);
               (PStr "divert-keys", PDict PlainDict [(PInt 82, PInt 0); (PStr "83", PInt 1)]);
               (PStr "dpi-sliding", PInt 195); (PStr "_sensitive", PDict PlainDict [])]])
  = [PStr "1.1.11";
     PDict _DeviceEntry
       [(PStr "_NAME", PStr "Mouse");
        (PStr "divert-keys", PDict PlainDict [(PInt 82, PInt 0); (PInt 195, PInt 3)]);
        (PStr "_sensitive", PDict PlainDict [])]].
Proof. reflexivity. Qed.

(** The keyboard with the all-zero modelId is found again by its name. *)
Example persister_finds_by_name :
  ∃ w1 w2,
    persister "1.1.11" zero_keyboard empty_store = Ok (Some 1%nat, w1)
    ∧ persister "1.1.11" zero_keyboard w1 = Ok (Some 1%nat, w2)
    ∧ w2 = w1.
Proof. do 2 eexists. repeat split. Qed.

(** ** Identity updates, substitution and parsing *)

(** C3 (amended).  For a stored entry and a tuple (name, wpid, serial,
    modelId, unitId) of non-empty strings, the first [update] stores the five
    values, the second one with the same tuple changes nothing, and neither of
    them calls [save]: [update] assigns through the item assignment of [dict],
    not through [_DeviceEntry.__setitem__], so the two calls request no save
    at all. *)
Theorem update_twice_requests_no_save
    (name wpid serial modelId unitId : string) (i : nat) (d : pydict) (w : world) :
  _config w !! i = Some (PDict _DeviceEntry d) →
  name ≠ "" → wpid ≠ "" → serial ≠ "" → modelId ≠ "" → unitId ≠ "" →
  let call := _DeviceEntry_update (Some name) (Some wpid) (Some serial)
                (Some modelId) (Some unitId) i in
  (dict_get (entry_at i (call w)) (PStr _KEY_NAME) = PStr name
   ∧ dict_get (entry_at i (call w)) (PStr _KEY_WPID) = PStr wpid
   ∧ dict_get (entry_at i (call w)) (PStr _KEY_SERIAL) = PStr serial
   ∧ dict_get (entry_at i (call w)) (PStr _KEY_MODEL_ID) = PStr modelId
   ∧ dict_get (entry_at i (call w)) (PStr _KEY_UNIT_ID) = PStr unitId)
  ∧ save_calls (call w) = save_calls w
  ∧ save_calls (call (call w)) = save_calls w
  ∧ call (call w) = call w.
Proof.
  intros Hi Hn Hw Hs Hm Hu call. subst call. unfold _DeviceEntry_update.
  split; [|split; [done|split; [done|]]].
  - rewrite (entry_at_mutate _ _ _ _ _ Hi).
    destruct (update_settles (Some name) (Some wpid) (Some serial) (Some modelId)
                (Some unitId) d) as (H1 & H2 & H3 & H4 & H5).
    cbn zeta in *. auto 10 using settled_get.
  - apply mutate_entry_idempotent. intros d'. apply update_idempotent.
Qed.

(** C5 (amended).  Both substitutions are gated on the modelId: the local
    [modelId] is the device's [_name] exactly when the device's modelId is
    the all-zero string, and the local [unitId] is replaced exactly then too
    (by [_serial] when the device's unitId is non-empty, by [None]
    otherwise); the unitId itself is never compared with the all-zero
    string. *)
Theorem persister_ids_gated_on_modelId (device : Device.t) :
  persister_modelId device =
    (if decide (Device.modelId device = Some zero_id)
     then Device._name device else Device.modelId device)
  ∧ persister_unitId device =
    (if decide (Device.modelId device = Some zero_id)
     then match Device.unitId device with
          | Some u => if decide (u = "") then None else Device._serial device
          | None => None
          end
     else Device.unitId device).
Proof.
  unfold persister_modelId, persister_unitId.
  destruct (Device.modelId device) as [m|]; cbn [of_attr].
  - destruct (py_eq (PStr m) (PStr zero_id)) eqn:E.
    + apply py_eq_str_l in E. injection E as <-.
      destruct (decide (Some zero_id = Some zero_id)); [|done].
      cbn [negb]. split; [done|].
      destruct (Device.unitId device) as [u|]; [|done].
      cbn [of_attr truthy]. destruct (decide (u = "")) as [->|Hu]; [done|].
      destruct (String.eqb u "") eqn:Eu; [apply String.eqb_eq in Eu; done|done].
    + destruct (decide (Some m = Some zero_id)) as [[= ->]|_]; [|done].
      by rewrite (proj2 (py_eq_str_l zero_id (PStr zero_id))) in E.
  - by destruct (decide (None = Some zero_id)).
Qed.

(** C8.  The legacy converter maps the document
    [{"_version": "0.9", "AABB:12345": {"_name": "Mouse", "mouse-gestures": true}}]
    to the list of ["0.9"] and one dictionary with [_wpid = "AABB"],
    [_serial = "12345"] and [_NAME = "Mouse"] (in this order of insertion),
    which is equal, as Python compares lists and dictionaries, to
    [["0.9", {"_NAME": "Mouse", "_wpid": "AABB", "_serial": "12345"}]]: the
    key is split, [_name] is renamed and the boolean [mouse-gestures] is
    dropped. *)
Theorem convert_json_example :
  let json_dict :=
    PDict PlainDict
      [(PStr "_version", PStr "0.9");
       (PStr "AABB:12345",
        PDict PlainDict [(PStr "_name", PStr "Mouse"); (PStr "mouse-gestures", PBool true)])] in
  _convert_json json_dict =
    Ok [PStr "0.9";
        PDict PlainDict
          [(PStr "_wpid", PStr "AABB"); (PStr "_serial", PStr "12345");
           (PStr "_NAME", PStr "Mouse")]]
  ∧ ∃ config, _convert_json json_dict = Ok config
      ∧ py_eq (PList config)
          (PList [PStr "0.9";
                  PDict PlainDict
                    [(PStr "_NAME", PStr "Mouse"); (PStr "_wpid", PStr "AABB");
                     (PStr "_serial", PStr "12345")]]) = true.
Proof. cbn zeta. split; [reflexivity|]. eexists. split; reflexivity. Qed.

(** Records that precede an element that is not a mapping are parsed and
    kept: the loop stops at that element with what it has appended so far. *)
Lemma parse_devices_stops_at_malformed discard good bad rest parsed_config entries :
  is_dict bad = false →
  Forall2 (fun device entry =>
             ∃ c data, device = PDict c data
                       ∧ _device_entry_from_config_dict data discard = Ok entry)
          good entries →
  parse_devices discard (good ++ bad :: rest)%list parsed_config
  = ((parsed_config ++ entries)%list, Some AssertionError).
Proof.
  intros Hbad Hgood. revert parsed_config.
  induction Hgood as [|device entry good entries (c & data & -> & Hentry) _ IH];
    intros parsed_config.
  - cbn. rewrite app_nil_r. by destruct bad.
  - cbn [app parse_devices]. rewrite Hentry, IH. by rewrite <- app_assoc.
Qed.

(** C1 (the code at a failing input).  For the loaded document
    [["1.1.11", {"_NAME": "Mouse"}, "oops"]], whose third element is not a
    mapping, [_parse_config] logs the [AssertionError] and returns the
    version followed by the entry built from the record that precedes the
    malformed one: that record is in the result. *)
Theorem parse_config_keeps_records_before_malformed (version : string) :
  let loaded_config :=
    PList [PStr "1.1.11"; PDict PlainDict [(PStr "_NAME", PStr "Mouse")]; PStr "oops"] in
  parse_config_warning version loaded_config = Some AssertionError
  ∧ _parse_config version loaded_config =
      [PStr version;
       PDict _DeviceEntry [(PStr "_NAME", PStr "Mouse"); (PStr "_sensitive", default_sensitive)]].
Proof.
  cbn zeta. unfold parse_config_warning, _parse_config, parse_config_try.
  cbn [truthy negb py_first py_rest tail].
  destruct (py_eq (PStr "1.1.11") (PStr version)); split; reflexivity.
Qed.

Lemma parse_devices_extends discard devices parsed_config :
  ∃ entries, (parse_devices discard devices parsed_config).1 = (parsed_config ++ entries)%list.
Proof.
  revert parsed_config. induction devices as [|device rest IH]; intros parsed_config.
  - exists []. cbn. by rewrite app_nil_r.
  - cbn [parse_devices]. destruct device; try (exists []; cbn; by rewrite app_nil_r).
    destruct (_device_entry_from_config_dict items discard) as [entry|e].
    + destruct (IH (parsed_config ++ [entry])%list) as [entries ->].
      exists (entry :: entries). by rewrite <- app_assoc.
    + exists []. cbn. by rewrite app_nil_r.
Qed.

(** C9.  Whatever was loaded, element 0 of the document that [_parse_config]
    returns is the version of the running application; the version read from
    a loaded list only decides, by comparison with the running one, whether
    the derived properties are discarded. *)
Theorem parse_config_version_is_current (version : string) (loaded_config : pyval) :
  _parse_config version loaded_config !! 0%nat = Some (PStr version)
  ∧ ∀ loaded_version devices,
      loaded_config = PList (loaded_version :: devices) →
      _parse_config version loaded_config =
        (parse_devices (negb (py_eq loaded_version (PStr version))) devices [PStr version]).1.
Proof.
  split.
  - unfold _parse_config, parse_config_try.
    destruct (negb (truthy loaded_config)); [done|].
    destruct (py_first loaded_config); [|done].
    destruct (py_rest loaded_config) as [devices|]; [|done].
    destruct (parse_devices_extends (negb (py_eq a (PStr version))) devices [PStr version])
      as [entries ->].
    done.
  - intros loaded_version devices ->. reflexivity.
Qed.

(** ** The write scheduler *)

Lemma filter_other_nil (t : nat) : List.filter (fun t' => negb (Nat.eqb t' t)) [t] = [].
Proof. cbn. by rewrite Nat.eqb_refl. Qed.

Lemma do_save_clears (w : world) :
  at_most_one_pending w → save_timer (do_save w) = None ∧ timers (do_save w) = [].
Proof.
  intros [Hnil | (t & Ht & Hts)]; unfold do_save.
  - destruct (save_timer w) eqn:E; cbn; rewrite ?Hnil;
      destruct (dir_exists w && writable w); cbn; rewrite ?E, ?Hnil; auto.
  - rewrite Ht; cbn. rewrite Hts, filter_other_nil.
    destruct (dir_exists w && writable w); cbn; auto.
Qed.

Lemma do_save_pending (w : world) :
  at_most_one_pending w → at_most_one_pending (do_save w).
Proof. intros H. left. by apply do_save_clears. Qed.

Lemma save_pending (defer : bool) (w : world) :
  at_most_one_pending w → at_most_one_pending (save defer w).
Proof.
  intros H. unfold save. cbn.
  destruct (_config w) eqn:Hc; [done|].
  destruct (negb (dir_exists w) && negb (makedirs_ok w)); [done|].
  destruct (negb defer || negb (defer_saves w)).
  - apply do_save_pending. done.
  - cbn. destruct (save_timer w) as [t|] eqn:Ht; [done|].
    right. exists (next_timer w). cbn.
    destruct H as [-> | (t & Ht' & _)]; [done|congruence].
Qed.

Lemma timer_wakes_pending (t : nat) (w : world) :
  at_most_one_pending w → at_most_one_pending (timer_wakes t w).
Proof.
  intros [Hnil | (t0 & Ht & Hts)]; unfold timer_wakes, at_most_one_pending; cbn.
  - left. by rewrite Hnil.
  - rewrite Hts, Ht. cbn. destruct (Nat.eqb t0 t); cbn; eauto.
Qed.

Lemma run_op_pending (o : op) (w : world) :
  at_most_one_pending w → at_most_one_pending (run_op o w).
Proof.
  destruct o; cbn [run_op]; intros H.
  - by apply save_pending.
  - by apply do_save_pending.
  - by apply timer_wakes_pending.
  - unfold _DeviceEntry__setitem__. by apply save_pending.
Qed.

Lemma run_ops_pending (ops : list op) (w : world) :
  at_most_one_pending w → at_most_one_pending (run_ops ops w).
Proof.
  revert w. induction ops as [|o ops IH]; intros w H; [done|].
  cbn. apply IH. by apply run_op_pending.
Qed.

Lemma pending_length (w : world) :
  at_most_one_pending w → (List.length (timers w) ≤ 1)%nat.
Proof. intros [-> | (t & _ & ->)]; cbn; lia. Qed.

(** C7.  From a state with at most one pending timer (the initial state has
    none), every sequence of [save], [do_save], timer expiry and item
    assignment leads to a state with at most one pending timer, the one
    [save_timer] refers to.  There, a deferred [save] made while a timer is
    set starts no timer, keeps the one that is set and writes nothing, and
    [do_save] leaves no timer pending and [save_timer] cleared. *)
Theorem at_most_one_timer_pending (w : world) (ops : list op) :
  at_most_one_pending w →
  let w' := run_ops ops w in
  at_most_one_pending w'
  ∧ (List.length (timers w') ≤ 1)%nat
  ∧ (∀ t, save_timer w' = Some t → defer_saves w' = true →
       save_timer (save true w') = Some t
       ∧ timers (save true w') = timers w'
       ∧ next_timer (save true w') = next_timer w'
       ∧ yaml_file (save true w') = yaml_file w')
  ∧ save_timer (do_save w') = None
  ∧ timers (do_save w') = [].
Proof.
  intros H w'. pose proof (run_ops_pending ops w H) as H'. fold w' in H'.
  split; [done|]. split; [by apply pending_length|].
  split; [|by apply do_save_clears].
  intros t Ht Hd. unfold save. cbn.
  destruct (_config w'); [done|].
  destruct (negb (dir_exists w') && negb (makedirs_ok w')); [done|].
  rewrite Hd. cbn. by rewrite Ht.
Qed.

Lemma at_most_one_timer_pending_witness :
  at_most_one_pending one_mouse_store
  ∧ at_most_one_pending
      (run_ops [OpSave true; OpSave true; OpTimerWakes 0; OpSave true; OpDoSave;
                OpSetitem (PStr "dpi") (PInt 1600) 1; OpSave true] one_mouse_store).
Proof.
  assert (H : at_most_one_pending one_mouse_store) by (left; reflexivity).
  split; [exact H|].
  exact (proj1 (at_most_one_timer_pending one_mouse_store
    [OpSave true; OpSave true; OpTimerWakes 0; OpSave true; OpDoSave;
     OpSetitem (PStr "dpi") (PInt 1600) 1; OpSave true] H)).
Defined.

(** ** The matcher *)

Lemma attr_test (a : option string) (v : pyval) :
  truthy (of_attr a) && py_eq (of_attr a) v = true ↔ ∃ x, a = Some x ∧ x ≠ "" ∧ v = PStr x.
Proof.
  destruct a as [x|]; cbn [of_attr truthy].
  - rewrite andb_true_iff, negb_true_iff, py_eq_str_l. split.
    + intros [Hx ->]. exists x. split; [done|]. split; [|done].
      intros ->. discriminate.
    + intros (y & [= <-] & Hy & ->). split; [|done].
      destruct (String.eqb x "") eqn:E; [|done]. by apply String.eqb_eq in E.
  - split; [discriminate|]. by intros (x & ? & _).
Qed.

Lemma pair_test (a b : option string) (ka kb : string) (c : pydict) :
  truthy (of_attr a) && py_eq (of_attr a) (dict_get c (PStr ka))
  && truthy (of_attr b) && py_eq (of_attr b) (dict_get c (PStr kb)) = true
  ↔ pair_stored a b ka kb c.
Proof.
  rewrite <- andb_assoc, andb_true_iff, !attr_test. unfold pair_stored. split.
  - intros [(x & -> & Hx & Hcx) (y & -> & Hy & Hcy)]. by exists x, y.
  - intros (x & y & -> & -> & Hx & Hy & Hcx & Hcy). split; eauto.
Qed.

Lemma match_spec (wpid serial modelId unitId : option string) (c : pydict) :
  match_ wpid serial modelId unitId c = true
  ↔ pair_stored wpid serial _KEY_WPID _KEY_SERIAL c
    ∨ pair_stored modelId unitId _KEY_MODEL_ID _KEY_UNIT_ID c.
Proof. unfold match_. by rewrite orb_true_iff, !pair_test. Qed.

(** A record that matches holds at least one item, so it is true in a
    condition, as [if not entry] needs. *)
Lemma match_nonempty wpid serial modelId unitId c :
  match_ wpid serial modelId unitId c = true → truthy (PDict _DeviceEntry c) = true.
Proof.
  intros H. destruct c; [|done].
  apply match_spec in H as [(x & y & _ & _ & _ & _ & H & _) | (x & y & _ & _ & _ & _ & H & _)];
    discriminate.
Qed.

Section Find.

Variables wpid serial modelId unitId : option string.

Abbreviation find := (find_entry wpid serial modelId unitId).
Abbreviation matches := (match_ wpid serial modelId unitId).

(** The loop stops at the first entry that matches. *)
Lemma find_entry_from (config : list pyval) (k i : nat) :
  find config k = Some i ↔
  ∃ j d, i = (k + j)%nat
         ∧ config !! j = Some (PDict _DeviceEntry d) ∧ matches d = true
         ∧ ∀ j' d', (j' < j)%nat → config !! j' = Some (PDict _DeviceEntry d') →
                    matches d' = false.
Proof.
  revert k. induction config as [|c rest IH]; intros k.
  - cbn. split; [discriminate|]. by intros (j & d & _ & H & _).
  - cbn [find_entry].
    assert (Hskip :
      (∀ d, c = PDict _DeviceEntry d → match_ wpid serial modelId unitId d = false) →
      find_entry wpid serial modelId unitId rest (S k) = Some i ↔
      ∃ j d, i = (k + j)%nat
         ∧ (c :: rest) !! j = Some (PDict _DeviceEntry d)
         ∧ match_ wpid serial modelId unitId d = true
         ∧ ∀ j' d', (j' < j)%nat → (c :: rest) !! j' = Some (PDict _DeviceEntry d') →
                    match_ wpid serial modelId unitId d' = false).
    { intros Hc. rewrite IH. split.
      - intros (j & d & -> & Hj & Hm & Hfirst). exists (S j), d.
        split; [lia|]. split; [done|]. split; [done|].
        intros [|j'] d' Hlt; cbn; [intros [= ->]; by apply Hc|].
        apply Hfirst. lia.
      - intros (j & d & -> & Hj & Hm & Hfirst). destruct j as [|j].
        + cbn in Hj. injection Hj as ->. rewrite (Hc d eq_refl) in Hm. discriminate.
        + exists j, d. split; [lia|]. split; [done|]. split; [done|].
          intros j' d' Hlt Hj'. apply (Hfirst (S j') d'); [lia|done]. }
    destruct c as [| | | | |[] d]; try (apply Hskip; intros; discriminate).
    destruct (match_ wpid serial modelId unitId d) eqn:Hd.
    + split.
      * intros [= <-]. exists 0%nat, d. split; [lia|]. split; [done|]. split; [done|].
        intros; lia.
      * intros (j & d' & -> & Hj & Hm & Hfirst). destruct j as [|j]; [f_equal; lia|].
        rewrite (Hfirst 0%nat d) in Hd; [discriminate|lia|done].
    + apply Hskip. by intros ? [= <-].
Qed.

Lemma find_entry_first (config : list pyval) (i : nat) :
  find config 0 = Some i ↔
  ∃ d, config !! i = Some (PDict _DeviceEntry d) ∧ matches d = true
       ∧ ∀ j d', (j < i)%nat → config !! j = Some (PDict _DeviceEntry d') →
                 matches d' = false.
Proof.
  rewrite find_entry_from. split.
  - intros (j & d & -> & H). by exists d.
  - intros (d & H). by exists i, d.
Qed.

End Find.

Lemma find_entry_lookup wpid serial modelId unitId (w : world) (i : nat) :
  find_entry wpid serial modelId unitId (_config w) 0 = Some i →
  ∃ d, _config w !! i = Some (PDict _DeviceEntry d) ∧ entry_at i w = d
       ∧ truthy (PDict _DeviceEntry d) = true.
Proof.
  intros H. apply find_entry_first in H as (d & Hd & Hm & _).
  exists d. split; [done|]. split; [unfold entry_at; by rewrite Hd|].
  by eapply match_nonempty.
Qed.

(** C4.  With the identity that [persister] takes from a device (its wpid,
    its [_serial], and the modelId and unitId after substitution): a record
    matches exactly when the wpid and serial are non-empty and are the
    record's [_wpid] and [_serial], or the modelId and unitId are non-empty
    and are the record's [_modelId] and [_unitId]; the scan returns the
    index of the first [_DeviceEntry] of the document that matches; of two
    records of which only one matches, that one is found whether it comes
    first or second; and [persister], on a loaded document, returns the
    record that the scan found. *)
Theorem matcher_first_match (device : Device.t) (config : list pyval) :
  let wpid := Device.wpid device in
  let serial := Device._serial device in
  let modelId := persister_modelId device in
  let unitId := persister_unitId device in
  (∀ c, match_ wpid serial modelId unitId c = true
        ↔ pair_stored wpid serial _KEY_WPID _KEY_SERIAL c
          ∨ pair_stored modelId unitId _KEY_MODEL_ID _KEY_UNIT_ID c)
  ∧ (∀ i, find_entry wpid serial modelId unitId config 0 = Some i
          ↔ ∃ d, config !! i = Some (PDict _DeviceEntry d)
                 ∧ match_ wpid serial modelId unitId d = true
                 ∧ ∀ j d', (j < i)%nat → config !! j = Some (PDict _DeviceEntry d') →
                           match_ wpid serial modelId unitId d' = false)
  ∧ (∀ v r1 r2, is_DeviceEntry v = false →
       match_ wpid serial modelId unitId r1 = true →
       match_ wpid serial modelId unitId r2 = false →
       find_entry wpid serial modelId unitId
         [v; PDict _DeviceEntry r1; PDict _DeviceEntry r2] 0 = Some 1%nat
       ∧ find_entry wpid serial modelId unitId
           [v; PDict _DeviceEntry r2; PDict _DeviceEntry r1] 0 = Some 2%nat)
  ∧ (∀ version w i, _config w = config → config ≠ [] →
       find_entry wpid serial modelId unitId config 0 = Some i →
       ∃ w', persister version device w = Ok (Some i, w')
             ∧ entry_at i w' =
                 update (Device.name device) (Device.wpid device) (Device.serial device)
                   modelId unitId (entry_at i w)).
Proof.
  intros wpid serial modelId unitId.
  split; [intros c; apply match_spec|].
  split; [intros i; apply find_entry_first|].
  split.
  - intros v r1 r2 Hv H1 H2. cbn [find_entry]. rewrite H1, H2.
    destruct v as [| | | | |[] d]; try done.
  - intros version w i <- Hne Hfind.
    destruct (find_entry_lookup _ _ _ _ _ _ Hfind) as (d & Hd & He & Ht).
    unfold persister, ensure_loaded.
    destruct (_config w) eqn:Hc; [done|]. rewrite <- Hc in *. cbn [mbind result_bind].
    fold wpid serial modelId unitId. rewrite Hfind, He, Ht.
    eexists. split; [reflexivity|].
    unfold _DeviceEntry_update. by rewrite (entry_at_mutate _ _ _ _ _ Hd).
Qed.

(** C6.  When the lazily loaded document holds no record that matches the
    device and the device is not online, [persister] returns [None] and
    leaves the state as the lazy load left it: nothing is appended, no record
    is changed; if the document was loaded already, the state is the one
    before the call. *)
Theorem persister_offline_unseen (version : string) (device : Device.t) (w w' : world) :
  ensure_loaded version w = Ok w' →
  find_entry (Device.wpid device) (Device._serial device)
    (persister_modelId device) (persister_unitId device) (_config w') 0 = None →
  Device.online device = false →
  persister version device w = Ok (None, w') ∧ (_config w ≠ [] → w' = w).
Proof.
  intros Hload Hfind Hoff. split.
  - unfold persister. rewrite Hload. cbn [mbind result_bind]. by rewrite Hfind, Hoff.
  - unfold ensure_loaded in Hload. destruct (_config w); [done|]. intros _. congruence.
Qed.

Lemma persister_offline_unseen_witness :
  persister "1.1.11" offline_trackball one_mouse_store = Ok (None, one_mouse_store).
Proof.
  exact (proj1 (persister_offline_unseen "1.1.11" offline_trackball one_mouse_store
                  one_mouse_store eq_refl eq_refl eq_refl)).
Defined.

(** ** What [persister] stores *)

Lemma entry_at_mutate_lt i f w :
  (i < List.length (_config w))%nat → entry_at i (mutate_entry i f w) = f (entry_at i w).
Proof.
  intros Hlt. unfold entry_at at 1. unfold mutate_entry. cbn [_config set_config].
  by rewrite list_lookup_insert_eq.
Qed.

(** The entry that [persister] returns is an element of the document, and
    the last thing done to it is the call of [update]. *)
Lemma persister_returns version device w i w' :
  persister version device w = Ok (Some i, w') →
  ∃ w1, (i < List.length (_config w1))%nat
        ∧ w' = _DeviceEntry_update (Device.name device) (Device.wpid device)
                 (Device.serial device) (persister_modelId device)
                 (persister_unitId device) i w1.
Proof.
  unfold persister. destruct (ensure_loaded version w) as [w0|]; [|done].
  cbn [mbind result_bind].
  destruct (find_entry _ _ _ _ (_config w0) 0) as [j|] eqn:Hfind.
  - destruct (truthy (PDict _DeviceEntry (entry_at j w0))).
    + intros [= <- <-]. exists w0. split; [|done].
      apply find_entry_lookup in Hfind as (d & Hd & _). by eapply lookup_lt_Some.
    + destruct (negb (Device.online device)); [done|].
      intros [= <- <-]. eexists. split; [|done].
      cbn [_config set_config]. rewrite length_app. cbn. lia.
  - destruct (negb (Device.online device)); [done|].
    intros [= <- <-]. eexists. split; [|done].
    cbn [_config set_config]. rewrite length_app. cbn. lia.
Qed.

(** C2 (counterexample).  The keyboard reports the all-zero modelId; the
    record that [persister] creates for it has the device's [_name] under
    [_modelId] and the device's [_serial] under [_unitId], neither the
    all-zero modelId nor the unitId that the device reports. *)
Lemma persister_matching_only_counterexample :
  Device.modelId zero_keyboard = Some "000000000000"
  ∧ Device.unitId zero_keyboard = Some "1A2B3C4D"
  ∧ ∃ w', persister "1.1.11" zero_keyboard empty_store = Ok (Some 1%nat, w')
          ∧ _config w' =
              [PStr "1.1.11";
               PDict _DeviceEntry
                 [(PStr "_NAME", PStr "Keyboard K1"); (PStr "_serial", PStr "S123");
                  (PStr "_modelId", PStr "Keyboard K1"); (PStr "_unitId", PStr "S123")]]
          ∧ dict_get (entry_at 1 w') (PStr _KEY_MODEL_ID) = of_attr (Device._name zero_keyboard)
          ∧ dict_get (entry_at 1 w') (PStr _KEY_UNIT_ID) = of_attr (Device._serial zero_keyboard).
Proof.
  split; [reflexivity|]. split; [reflexivity|].
  eexists. split; [reflexivity|]. repeat split.
Qed.

(** C3 (counterexample).  On an empty stored entry the first [update] with
    five non-empty values writes five fields, and after the second call the
    number of [save] calls is still what it was: not one more. *)
Lemma update_twice_one_save_counterexample :
  let w0 := set_config [PStr "1.1.11"; PDict _DeviceEntry []] empty_store in
  let call := _DeviceEntry_update (Some "Mouse") (Some "4082") (Some "AB12CD34")
                (Some "B01234567890") (Some "1A2B3C4D") 1 in
  List.length (entry_at 1 (call w0)) = 5%nat
  ∧ List.length (save_calls (call (call w0))) ≠ S (List.length (save_calls w0)).
Proof. cbn zeta. split; [reflexivity|]. cbn. lia. Qed.

Lemma update_twice_requests_no_save_witness :
  let call := _DeviceEntry_update (Some "Mouse") (Some "4082") (Some "AB12CD34")
                (Some "B01234567890") (Some "1A2B3C4D") 1 in
  save_calls (call (call one_mouse_store)) = save_calls one_mouse_store.
Proof.
  refine (proj1 (proj2 (proj2 (update_twice_requests_no_save "Mouse" "4082" "AB12CD34"
    "B01234567890" "1A2B3C4D" 1 _ one_mouse_store eq_refl _ _ _ _ _)))); discriminate.
Defined.

(** C5 (counterexample).  A device with a proper modelId and the all-zero
    string as unitId keeps that unitId: it is not replaced by the serial.  A
    device with the all-zero modelId and a proper unitId has the unitId
    replaced by the serial. *)
Lemma unitId_tested_independently_counterexample :
  (Device.unitId zero_unit_mouse = Some zero_id
   ∧ persister_unitId zero_unit_mouse = Some zero_id
   ∧ persister_unitId zero_unit_mouse ≠ Device._serial zero_unit_mouse)
  ∧ (Device.unitId zero_keyboard ≠ Some zero_id
     ∧ persister_unitId zero_keyboard = Device._serial zero_keyboard
     ∧ persister_unitId zero_keyboard ≠ Device.unitId zero_keyboard).
Proof. repeat split; discriminate. Qed.

(** ** The legacy converter *)

Lemma convert_items_spec (items : pydict) (config out : list pyval) :
  convert_items items config = Ok out ↔
  Forall (fun item => is_str item.1 = true) items
  ∧ ∃ devs, out = (config ++ devs)%list
            ∧ Forall2 converted_from (List.filter (fun item => has_two_parts item.1) items) devs.
Proof.
  revert config out. induction items as [|[key dev] rest IH]; intros config out.
  - cbn. split.
    + intros [= <-]. split; [constructor|]. exists []. rewrite app_nil_r. by split.
    + intros (_ & devs & -> & Hdevs). apply Forall2_nil_inv_l in Hdevs as ->.
      by rewrite app_nil_r.
  - cbn [convert_items List.filter]. rewrite Forall_cons. cbn [fst].
    destruct key as [| | |s| |]; try (split; [discriminate|by intros [[? _] _]]).
    unfold has_two_parts at 1.
    destruct (split_colon s) as [|key0 [|key1 [|key2 more]]] eqn:Hs; cbn [List.length Nat.eqb];
      try (rewrite IH; cbn [is_str]; clear; intuition).
    destruct (convert_device key0 key1 dev) as [dev'|e] eqn:Hdev; cbn [mbind result_bind].
    + rewrite IH. cbn [is_str]. split.
      * intros (Hrest & devs & -> & Hdevs). split; [done|].
        exists (dev' :: devs). rewrite <- app_assoc. split; [done|].
        constructor; [|done]. by exists s, key0, key1.
      * intros ((_ & Hrest) & devs & -> & Hdevs).
        apply Forall2_cons_inv_l in Hdevs as (dev'' & devs' & Hconv & Hdevs & ->).
        destruct Hconv as (s' & k0 & k1 & [= <-] & Hs' & Hconv). cbn [snd] in Hconv.
        rewrite Hs in Hs'. injection Hs' as <- <-. rewrite Hdev in Hconv.
        injection Hconv as <-.
        split; [done|]. exists devs'. by rewrite <- app_assoc.
    + split; [discriminate|].
      intros (_ & devs & _ & Hdevs).
      apply Forall2_cons_inv_l in Hdevs as (dev'' & devs' & Hconv & _).
      destruct Hconv as (s' & k0 & k1 & [= <-] & Hs' & Hconv). cbn [snd] in Hconv.
      rewrite Hs in Hs'. injection Hs' as <- <-. rewrite Hdev in Hconv. discriminate.
Qed.

(** C10.  For a legacy document (a mapping), [_convert_json] returns a list
    exactly when every key is a string and every entry whose key splits on
    [":"] into two parts converts without an exception; the list is then the
    value of the ["_version"] key ([None] when there is no such key) followed,
    in order, by the converted entries of exactly the items whose key has two
    parts: an item whose key has another number of parts leaves nothing in
    the output. *)
Theorem convert_json_keeps_two_part_keys (c : dict_class) (items : pydict) (out : list pyval) :
  _convert_json (PDict c items) = Ok out ↔
  Forall (fun item => is_str item.1 = true) items
  ∧ ∃ devs,
      out = default PNone (dict_lookup (PStr "_version") items) :: devs
      ∧ Forall2 converted_from (List.filter (fun item => has_two_parts item.1) items) devs.
Proof. cbn [_convert_json]. by rewrite convert_items_spec. Qed.

(** * Further properties of the module *)

(** ** More on dictionaries *)

Lemma scalar_eq_str_r (k : string) (k' : pyval) :
  scalar_eq k' (PStr k) = true → k' = PStr k.
Proof.
  destruct k'; simpl; try discriminate.
  intros H. apply String.eqb_eq in H. by subst.
Qed.

Lemma dict_lookup_pop_ne (k k' : string) (d : pydict) :
  k ≠ k' → dict_lookup (PStr k') (dict_pop (PStr k) d) = dict_lookup (PStr k') d.
Proof.
  intros Hne. induction d as [|[k1 v1] d IH]; cbn [dict_pop dict_lookup]; [done|].
  destruct (scalar_eq (PStr k) k1) eqn:E; cbn [dict_lookup].
  - apply scalar_eq_str_l in E. subst k1.
    destruct (scalar_eq (PStr k') (PStr k)) eqn:E'; [|done].
    apply scalar_eq_str_l in E'. congruence.
  - by rewrite IH.
Qed.

Lemma dict_lookup_pop_None (k k' : pyval) (d : pydict) :
  dict_lookup k' d = None → dict_lookup k' (dict_pop k d) = None.
Proof.
  induction d as [|[k1 v1] d IH]; cbn [dict_pop dict_lookup]; [done|].
  destruct (scalar_eq k' k1) eqn:E'; [discriminate|]. intros H.
  destruct (scalar_eq k k1); [done|]. cbn [dict_lookup]. rewrite E'. auto.
Qed.


Lemma dict_lookup_pop_eq (k : string) (d : pydict) :
  unique_keys d → dict_lookup (PStr k) (dict_pop (PStr k) d) = None.
Proof.
  induction d as [|[k1 v1] d IH]; cbn [dict_pop dict_lookup unique_keys]; [done|].
  intros [Hk1 Hd]. destruct (scalar_eq (PStr k) k1) eqn:E.
  - apply scalar_eq_str_l in E. by subst k1.
  - cbn [dict_lookup]. rewrite E. auto.
Qed.

Lemma unique_keys_pop (k : pyval) (d : pydict) :
  unique_keys d → unique_keys (dict_pop k d).
Proof.
  induction d as [|[k1 v1] d IH]; cbn [dict_pop unique_keys]; [done|].
  intros [Hk1 Hd]. destruct (scalar_eq k k1); [done|].
  cbn [unique_keys]. split; [by apply dict_lookup_pop_None|auto].
Qed.

Lemma dict_lookup_setitem_None (k : string) (k' v : pyval) (d : pydict) :
  dict_lookup k' d = None → scalar_eq k' (PStr k) = false →
  dict_lookup k' (dict_setitem (PStr k) v d) = None.
Proof.
  intros Hd Hk. induction d as [|[k1 v1] d IH]; cbn [dict_setitem dict_lookup] in *.
  - by rewrite Hk.
  - destruct (scalar_eq k' k1) eqn:E'; [discriminate|].
    destruct (scalar_eq (PStr k) k1); cbn [dict_lookup]; rewrite E'; auto.
Qed.

Lemma unique_keys_setitem (k : string) (v : pyval) (d : pydict) :
  unique_keys d → unique_keys (dict_setitem (PStr k) v d).
Proof.
  induction d as [|[k1 v1] d IH]; cbn [dict_setitem unique_keys]; [done|].
  intros [Hk1 Hd]. destruct (scalar_eq (PStr k) k1) eqn:E; cbn [unique_keys].
  - done.
  - split; [|auto]. apply dict_lookup_setitem_None; [done|].
    destruct (scalar_eq k1 (PStr k)) eqn:E1; [|done].
    apply scalar_eq_str_r in E1. subst k1. by rewrite scalar_eq_str_refl in E.
Qed.

Lemma dict_setitem_same (k : string) (v : pyval) (d : pydict) :
  dict_lookup (PStr k) d = Some v → dict_setitem (PStr k) v d = d.
Proof.
  induction d as [|[k1 v1] d IH]; cbn [dict_setitem dict_lookup]; [done|].
  destruct (scalar_eq (PStr k) k1); [by intros [= ->]|].
  intros H. by rewrite IH.
Qed.

Lemma forallb_is_str_setitem (k : string) (v : pyval) (d : pydict) :
  forallb (fun kv => is_str kv.1) (dict_setitem (PStr k) v d)
  = forallb (fun kv => is_str kv.1) d.
Proof.
  induction d as [|[k1 v1] d IH]; cbn [dict_setitem forallb fst]; [done|].
  destruct (scalar_eq (PStr k) k1); cbn [forallb fst]; [done|]. by rewrite IH.
Qed.


Lemma forallb_filter (A : Type) (f : A → bool) (l : list A) :
  forallb f (List.filter f l) = true.
Proof.
  induction l as [|x l IH]; cbn; [done|].
  destruct (f x) eqn:E; cbn; [by rewrite E|done].
Qed.

(** ** What [_device_entry_from_config_dict] builds *)

Lemma forallb_keyword_str (d : pydict) :
  forallb (fun kv => is_keyword kv.1) d = true → forallb (fun kv => is_str kv.1) d = true.
Proof.
  induction d as [|[k v] d IH]; cbn [forallb fst]; [done|].
  rewrite !andb_true_iff. intros [Hk Hd]. split; [by destruct k|auto].
Qed.

(** The three stages of the function: the conversion of the legacy settings
    into [divert-keys], the default for [_sensitive], the removal of the
    derived properties. *)
Lemma device_entry_stages (data : pydict) (discard : bool) (e : pyval) :
  _device_entry_from_config_dict data discard = Ok e →
  ∃ data1,
    (truthy (dict_get data (PStr "divert-keys")) = false ∧ data1 = data
     ∨ truthy (dict_get data (PStr "divert-keys")) = true
       ∧ ∃ items,
           data1 = dict_setitem (PStr "divert-keys")
                     (PDict PlainDict (List.filter (fun kv => is_int kv.1) items))
                     (dict_pop (PStr "mouse-gestures") (dict_pop (PStr "dpi-sliding") data)))
    ∧ let data2 :=
        match dict_get data1 (PStr _KEY_SENSITIVE) with
        | PNone => dict_setitem (PStr _KEY_SENSITIVE) default_sensitive data1
        | _ => data1
        end in
      let data3 :=
        if discard then dict_pop (PStr "_battery") (dict_pop (PStr _KEY_ABSENT) data2)
        else data2 in
      e = PDict _DeviceEntry data3 ∧ forallb (fun kv => is_keyword kv.1) data3 = true.
Proof.
  unfold _device_entry_from_config_dict, new_DeviceEntry.
  destruct (truthy (dict_get data (PStr "divert-keys"))) eqn:Hdivert.
  - destruct (inject_divert _ _ 3) as [divert1|]; [|done]. cbn [mbind result_bind].
    destruct (inject_divert _ _ 2) as [divert2|]; [|done]. cbn [mbind result_bind].
    destruct divert2 as [| | | | |c items]; try done. cbn [mbind result_bind].
    intros H. eexists. split; [right; split; [done|by exists items]|].
    cbn zeta. destruct (forallb _ _); [|done]. by injection H as <-.
  - cbn [mbind result_bind]. intros H. exists data. split; [by left|].
    cbn zeta. destruct (forallb _ _); [|done]. by injection H as <-.
Qed.

Lemma sensitive_stage_get (d : pydict) :
  dict_get
    match dict_get d (PStr _KEY_SENSITIVE) with
    | PNone => dict_setitem (PStr _KEY_SENSITIVE) default_sensitive d
    | _ => d
    end (PStr _KEY_SENSITIVE) ≠ PNone.
Proof.
  destruct (dict_get d (PStr _KEY_SENSITIVE)) eqn:E; rewrite ?E; try done.
  by rewrite dict_get_setitem_eq.
Qed.

Lemma sensitive_stage_lookup (k : string) (d : pydict) :
  k ≠ _KEY_SENSITIVE →
  dict_lookup (PStr k)
    match dict_get d (PStr _KEY_SENSITIVE) with
    | PNone => dict_setitem (PStr _KEY_SENSITIVE) default_sensitive d
    | _ => d
    end = dict_lookup (PStr k) d.
Proof.
  intros Hk. destruct (dict_get d (PStr _KEY_SENSITIVE)); try done.
  by apply dict_lookup_setitem_ne.
Qed.

Lemma discard_stage_lookup (k : string) (discard : bool) (d : pydict) :
  k ≠ _KEY_ABSENT → k ≠ "_battery" →
  dict_lookup (PStr k)
    (if discard then dict_pop (PStr "_battery") (dict_pop (PStr _KEY_ABSENT) d) else d)
  = dict_lookup (PStr k) d.
Proof.
  intros H1 H2. destruct discard; [|done].
  by rewrite !dict_lookup_pop_ne.
Qed.

(** Whatever [_device_entry_from_config_dict] returns is a [_DeviceEntry]
    with string keys only and with a value other than [None] under
    [_sensitive]. *)
Lemma device_entry_shape (data : pydict) (discard : bool) (e : pyval) :
  _device_entry_from_config_dict data discard = Ok e →
  ∃ d, e = PDict _DeviceEntry d
       ∧ forallb (fun kv => is_str kv.1) d = true
       ∧ dict_get d (PStr _KEY_SENSITIVE) ≠ PNone.
Proof.
  intros H. apply device_entry_stages in H as (data1 & _ & He & Hstr). cbn zeta in *.
  eexists. split; [done|]. split; [by apply forallb_keyword_str|].
  unfold dict_get. rewrite discard_stage_lookup by done. apply sensitive_stage_get.
Qed.

Lemma parse_devices_entries (P : pyval → Prop) (discard : bool) (devices acc : list pyval) :
  (∀ data e c, PDict c data ∈ devices →
     _device_entry_from_config_dict data discard = Ok e → P e) →
  ∃ entries, (parse_devices discard devices acc).1 = (acc ++ entries)%list
             ∧ Forall P entries.
Proof.
  revert acc. induction devices as [|device rest IH]; intros acc HP.
  - exists []. cbn. by rewrite app_nil_r.
  - cbn [parse_devices].
    destruct device as [| | | | |c data];
      try (exists []; cbn; by rewrite app_nil_r).
    destruct (_device_entry_from_config_dict data discard) as [entry|err] eqn:He.
    + destruct (IH (acc ++ [entry])%list) as (entries & -> & Hentries).
      { intros data' e' c' Hin. apply (HP data' e' c'). by right. }
      exists (entry :: entries). rewrite <- app_assoc. split; [done|].
      constructor; [|done]. apply (HP data entry c); [by left|done].
    + exists []. cbn. by rewrite app_nil_r.
Qed.

Lemma parse_config_entries (P : pyval → Prop) (version : string) (loaded_config : pyval) :
  (∀ discard data e, _device_entry_from_config_dict data discard = Ok e → P e) →
  ∃ entries, _parse_config version loaded_config = PStr version :: entries
             ∧ Forall P entries.
Proof.
  intros HP. unfold _parse_config, parse_config_try.
  destruct (negb (truthy loaded_config)); [by exists []|].
  destruct (py_first loaded_config) as [loaded_version|]; [|by exists []].
  destruct (py_rest loaded_config) as [devices|]; [|by exists []].
  apply (parse_devices_entries P _ devices [PStr version]). eauto.
Qed.

(** X1.  Every element that [_parse_config] returns after the version is a
    [_DeviceEntry] with string keys only and a [_sensitive] value other than
    [None], for every loaded document. *)
Theorem parse_config_entries_well_formed (version : string) (loaded_config : pyval) :
  ∃ entries,
    _parse_config version loaded_config = PStr version :: entries
    ∧ Forall (fun e => ∃ d, e = PDict _DeviceEntry d
                            ∧ forallb (fun kv => is_str kv.1) d = true
                            ∧ dict_get d (PStr _KEY_SENSITIVE) ≠ PNone) entries.
Proof. apply parse_config_entries. intros discard data e. apply device_entry_shape. Qed.

Lemma dict_get_lookup (d : pydict) (k v : pyval) :
  dict_lookup k d = Some v → dict_get d k = v.
Proof. unfold dict_get. by intros ->. Qed.


(** A record with pairwise different keys comes out in normal form, with
    pairwise different keys, and without the derived properties when they
    are to be discarded. *)
Lemma device_entry_normal (data : pydict) (discard : bool) (e : pyval) :
  unique_keys data →
  _device_entry_from_config_dict data discard = Ok e →
  ∃ d, e = PDict _DeviceEntry d ∧ normal_entry d ∧ unique_keys d
       ∧ (discard = true →
          dict_lookup (PStr _KEY_ABSENT) d = None ∧ dict_lookup (PStr "_battery") d = None).
Proof.
  intros Hu H. apply device_entry_stages in H as (data1 & Hdata1 & He & Hstr).
  cbn zeta in *.
  assert (Hu1 : unique_keys data1).
  { destruct Hdata1 as [[_ ->] | (_ & items & ->)]; [done|].
    by apply unique_keys_setitem, unique_keys_pop, unique_keys_pop. }
  assert (Hd1 : truthy (dict_get data1 (PStr "divert-keys")) = true →
     dict_lookup (PStr "dpi-sliding") data1 = None
     ∧ dict_lookup (PStr "mouse-gestures") data1 = None
     ∧ ∃ items, dict_lookup (PStr "divert-keys") data1 = Some (PDict PlainDict items)
                ∧ forallb (fun kv => is_int kv.1) items = true).
  { destruct Hdata1 as [[Hf ->] | (_ & items & ->)]; [by rewrite Hf|].
    intros _. rewrite !dict_lookup_setitem_ne by done.
    rewrite dict_lookup_pop_ne by done.
    rewrite dict_lookup_pop_eq by done.
    rewrite dict_lookup_pop_eq by (by apply unique_keys_pop).
    split; [done|]. split; [done|].
    eexists. split; [apply dict_lookup_setitem_eq|apply forallb_filter]. }
  set (data2 := match dict_get data1 (PStr _KEY_SENSITIVE) with
                | PNone => dict_setitem (PStr _KEY_SENSITIVE) default_sensitive data1
                | _ => data1
                end) in *.
  assert (Hu2 : unique_keys data2).
  { subst data2. destruct (dict_get data1 (PStr _KEY_SENSITIVE)); try done.
    by apply unique_keys_setitem. }
  eexists. split; [done|]. split; [|split].
  - split; [done|]. split.
    + unfold dict_get. rewrite discard_stage_lookup by done. apply sensitive_stage_get.
    + unfold dict_get. rewrite !discard_stage_lookup by done.
      subst data2. rewrite !sensitive_stage_lookup by done. apply Hd1.
  - destruct discard; [|done]. by apply unique_keys_pop, unique_keys_pop.
  - intros ->. split.
    + rewrite dict_lookup_pop_ne by done. by apply dict_lookup_pop_eq.
    + apply dict_lookup_pop_eq. by apply unique_keys_pop.
Qed.



(** *** The order of the keys in the file *)

Lemma forallb_insert_item (P : pyval → bool) (x : pyval * pyval) (l : pydict) :
  forallb (fun kv => P kv.1) (insert_item x l) = P x.1 && forallb (fun kv => P kv.1) l.
Proof.
  induction l as [|y r IH]; cbn [insert_item forallb]; [done|].
  destruct (key_lt y.1 x.1); cbn [forallb]; [|done].
  rewrite IH. by destruct (P x.1), (P y.1).
Qed.

Lemma forallb_isort (P : pyval → bool) (l : pydict) :
  forallb (fun kv => P kv.1) (foldr insert_item [] l) = forallb (fun kv => P kv.1) l.
Proof.
  induction l as [|x r IH]; cbn [foldr forallb]; [done|].
  by rewrite forallb_insert_item, IH.
Qed.


Lemma forallb_map_keys (P : pyval → bool) g (l : pydict) :
  keeps_keys g →
  forallb (fun kv => P kv.1) (List.map g l) = forallb (fun kv => P kv.1) l.
Proof.
  intros Hg. induction l as [|x r IH]; cbn [List.map forallb]; [done|].
  by rewrite Hg, IH.
Qed.

Lemma dump_item_keeps_keys :
  keeps_keys (fun kv => match kv with (k, x) => (k, dump_value x) end).
Proof. by intros [k x]. Qed.















(** *** Writing what was read back *)

Lemma key_lt_asym (a b : pyval) : key_lt a b = true → key_lt b a = false.
Proof.
  destruct a as [|x|x|x|?|? ?], b as [|y|y|y|?|? ?]; cbn [key_lt int_of_key]; try done.
  - by destruct x, y.
  - destruct x; intros H; apply Z.ltb_lt in H; apply Z.ltb_ge; lia.
  - destruct y; intros H; apply Z.ltb_lt in H; apply Z.ltb_ge; lia.
  - intros H; apply Z.ltb_lt in H; apply Z.ltb_ge; lia.
  - unfold String.ltb. rewrite (String.compare_antisym y x).
    by destruct (String.compare x y).
Qed.

Lemma insert_item_sorted (x : pyval * pyval) (l : pydict) :
  key_sorted l → key_sorted (insert_item x l).
Proof.
  induction l as [|y r IH]; cbn [insert_item]; [done|].
  destruct (key_lt y.1 x.1) eqn:Hyx; [|by intros ?; split].
  intros Hs. destruct r as [|z r'].
  - cbn. split; [by apply key_lt_asym|done].
  - destruct Hs as [Hzy Hs]. specialize (IH Hs). cbn [insert_item] in *.
    destruct (key_lt z.1 x.1); cbn [key_sorted] in *.
    + by split.
    + split; [by apply key_lt_asym|done].
Qed.

Lemma isort_sorted (l : pydict) : key_sorted (foldr insert_item [] l).
Proof.
  induction l as [|x r IH]; cbn [foldr]; [done|]. by apply insert_item_sorted.
Qed.

Lemma isort_of_sorted (l : pydict) : key_sorted l → foldr insert_item [] l = l.
Proof.
  induction l as [|x r IH]; cbn [foldr]; [done|].
  intros Hs. destruct r as [|y r']; [done|].
  destruct Hs as [Hyx Hs]. rewrite (IH Hs). cbn [insert_item]. by rewrite Hyx.
Qed.

Lemma sort_items_idempotent (l : pydict) : sort_items (sort_items l) = sort_items l.
Proof.
  unfold sort_items.
  destruct (forallb (fun kv => is_str kv.1) l || forallb (fun kv => is_int kv.1) l) eqn:E.
  - rewrite !forallb_isort, E. apply isort_of_sorted, isort_sorted.
  - by rewrite E.
Qed.

Lemma map_insert_item g (x : pyval * pyval) (l : pydict) :
  keeps_keys g → List.map g (insert_item x l) = insert_item (g x) (List.map g l).
Proof.
  intros Hg. induction l as [|y r IH]; cbn [insert_item List.map]; [done|].
  rewrite !Hg. destruct (key_lt y.1 x.1); cbn [List.map]; [by rewrite IH|done].
Qed.

Lemma map_sort_items g (l : pydict) :
  keeps_keys g → List.map g (sort_items l) = sort_items (List.map g l).
Proof.
  intros Hg. unfold sort_items. rewrite !(forallb_map_keys _ g l Hg).
  destruct (_ || _); [|done].
  induction l as [|x r IH]; cbn [foldr List.map]; [done|].
  by rewrite map_insert_item, IH.
Qed.

(** Induction on a value, with the property for the elements of a list and
    for the values of a dictionary. *)
Lemma pyval_nested_ind (P : pyval → Prop) :
  P PNone → (∀ b, P (PBool b)) → (∀ z, P (PInt z)) → (∀ s, P (PStr s)) →
  (∀ l, Forall P l → P (PList l)) →
  (∀ c items, Forall (fun kv => P kv.2) items → P (PDict c items)) →
  ∀ v, P v.
Proof.
  intros HN HB HI HS HL HD. fix IH 1.
  intros [|b|z|s|l|c items]; [exact HN|apply HB|apply HI|apply HS| |].
  - apply HL. induction l as [|x l IHl]; constructor; [apply IH|exact IHl].
  - apply HD. induction items as [|[k x] items IHi]; constructor; [apply IH|exact IHi].
Qed.

(** Reading back what was read back changes nothing more. *)
Lemma dump_value_idempotent (v : pyval) : dump_value (dump_value v) = dump_value v.
Proof.
  induction v as [| | | |l IHl|c items IHi] using pyval_nested_ind; try done.
  - cbn [dump_value]. f_equal. rewrite List.map_map.
    induction IHl as [|x l Hx _ IH]; cbn [List.map]; [done|]. by rewrite Hx, IH.
  - cbn [dump_value]. f_equal.
    rewrite (map_sort_items _ _ dump_item_keeps_keys), sort_items_idempotent. f_equal.
    rewrite List.map_map.
    induction IHi as [|[k x] items Hx _ IH]; cbn [List.map]; [done|].
    cbn [snd] in Hx. by rewrite Hx, IH.
Qed.

Lemma dump_items_idempotent (d : pydict) : dump_items (dump_items d) = dump_items d.
Proof.
  pose proof (dump_value_idempotent (PDict PlainDict d)) as H.
  cbn [dump_value] in H. by injection H.
Qed.


(** *** Parsing the dump of a document in normal form *)









Lemma well_keyed_devices (loaded_config : pyval) (devices : list pyval) c data :
  well_keyed loaded_config → py_rest loaded_config = Ok devices →
  PDict c data ∈ devices → unique_keys data.
Proof.
  destruct loaded_config as [| | |s|l|]; try done; cbn [well_keyed py_rest].
  - intros _ [= <-] Hin. apply list_elem_of_fmap in Hin as (ch & Hch & _). discriminate.
  - intros Hl [= <-] Hin. rewrite Forall_forall in Hl.
    apply (Hl (PDict c data)). destruct l; [by apply elem_of_nil in Hin|by right].
Qed.




(** X4.  When the version at the head of a loaded list is not the running
    one, no entry of the parsed document has an [_absent] or a [_battery]
    key (the records of the loaded list having pairwise different keys). *)
Theorem parse_config_discards_derived
    (version : string) (loaded_version : pyval) (devices : list pyval) :
  well_keyed (PList (loaded_version :: devices)) →
  py_eq loaded_version (PStr version) = false →
  ∃ entries,
    _parse_config version (PList (loaded_version :: devices)) = PStr version :: entries
    ∧ Forall (fun e => ∃ d, e = PDict _DeviceEntry d
                            ∧ dict_contains d (PStr _KEY_ABSENT) = false
                            ∧ dict_contains d (PStr "_battery") = false) entries.
Proof.
  intros Hwk Hne. unfold _parse_config, parse_config_try.
  cbn [truthy negb py_first py_rest tail]. rewrite Hne. cbn [negb].
  apply (parse_devices_entries _ true devices [PStr version]).
  intros data e c Hin He.
  destruct (device_entry_normal data true e) as (d & -> & _ & _ & Hgone); [|done|].
  { eapply (well_keyed_devices (PList (loaded_version :: devices))); [done|done|done]. }
  destruct (Hgone eq_refl) as (Ha & Hb).
  exists d. unfold dict_contains. by rewrite Ha, Hb.
Qed.

Lemma parse_config_discards_derived_witness :
  ∃ entries,
    _parse_config "1.1.11"
      (PList [PStr "1.1.10";
              PDict PlainDict [(PStr "_NAME", PStr "Mouse"); (PStr "_absent", PBool true);
                               (PStr "_battery", PInt 50)]])
    = PStr "1.1.11" :: entries
    ∧ Forall (fun e => ∃ d, e = PDict _DeviceEntry d
                            ∧ dict_contains d (PStr _KEY_ABSENT) = false
                            ∧ dict_contains d (PStr "_battery") = false) entries.
Proof.
  apply parse_config_discards_derived; [|reflexivity].
  cbn [well_keyed unique_keys]. repeat constructor.
Defined.

(** ** Saving and loading *)



Lemma mutate_entry_config_nonempty i f w :
  _config w ≠ [] → _config (mutate_entry i f w) ≠ [].
Proof.
  unfold mutate_entry. cbn [_config set_config]. intros H Hnil.
  apply (f_equal List.length) in Hnil. rewrite length_insert in Hnil.
  by destruct (_config w).
Qed.

Lemma setitem_burst_first key value i w :
  defer_saves w = true → save_timer w = None → timers w = [] → _config w ≠ [] →
  dir_exists w || makedirs_ok w = true →
  burst_state (next_timer w) (yaml_file w) (_DeviceEntry__setitem__ key value i w).
Proof.
  intros Hd Ht Hts Hc Hdir.
  pose proof (mutate_entry_config_nonempty i (dict_setitem key value) w Hc) as Hc'.
  destruct w as [cfg st df ts nt yf jf de mo wr sc]. cbn in Hd, Ht, Hts, Hc, Hdir. subst.
  unfold _DeviceEntry__setitem__, save, mutate_entry, burst_state in *. cbn in *.
  destruct (<[i:=_]> cfg) eqn:E; [done|].
  destruct de, mo; try done; cbn; by rewrite ?E.
Qed.

Lemma setitem_burst_next t yf key value i w :
  burst_state t yf w → burst_state t yf (_DeviceEntry__setitem__ key value i w).
Proof.
  intros (Hd & Ht & Hts & Hn & Hy & Hc & Hdir).
  pose proof (mutate_entry_config_nonempty i (dict_setitem key value) w Hc) as Hc'.
  destruct w as [cfg st df ts nt yf' jf de mo wr sc]. cbn in Hd, Ht, Hts, Hn, Hy, Hc, Hdir.
  subst.
  unfold _DeviceEntry__setitem__, save, mutate_entry, burst_state in *. cbn in *.
  destruct (<[i:=_]> cfg) eqn:E; [done|].
  cbn; by rewrite ?E.
Qed.

Lemma run_ops_burst t yf l w :
  burst_state t yf w → burst_state t yf (run_ops (assignments l) w).
Proof.
  revert w. induction l as [|[[k v] i] l IH]; intros w H; [done|].
  cbn. apply IH. by apply setitem_burst_next.
Qed.

(** X6.  With deferred saves allowed and no timer set, a burst of item
    assignments, however long, starts exactly one timer and writes nothing;
    the [do_save] that follows writes the document with all the assignments
    made and leaves no timer. *)
Theorem deferred_assignments_coalesce (w : world) (l : list (pyval * pyval * nat)) :
  defer_saves w = true → save_timer w = None → timers w = [] → _config w ≠ [] →
  dir_exists w || makedirs_ok w = true →
  l ≠ [] →
  let w' := run_ops (assignments l) w in
  yaml_file w' = yaml_file w
  ∧ save_timer w' = Some (next_timer w) ∧ timers w' = [next_timer w]
  ∧ next_timer w' = S (next_timer w)
  ∧ (writable w' = true →
     yaml_file (do_save w') = Content (dumped (_config w'))
     ∧ save_timer (do_save w') = None ∧ timers (do_save w') = []).
Proof.
  intros Hd Ht Hts Hc Hdir Hl w'.
  destruct l as [|[[k v] i] l]; [done|].
  assert (H : burst_state (next_timer w) (yaml_file w) w').
  { subst w'. cbn. apply run_ops_burst. by apply setitem_burst_first. }
  destruct H as (Hd' & Ht' & Hts' & Hn' & Hy' & Hc' & Hdir').
  split; [done|]. split; [done|]. split; [done|]. split; [done|].
  intros Hwr. clearbody w'. destruct w' as [cfg st df ts nt yf jf de mo wr sc].
  cbn in Hd', Ht', Hts', Hn', Hy', Hc', Hdir', Hwr. subst.
  unfold do_save. cbn. by rewrite Nat.eqb_refl.
Qed.

Lemma deferred_assignments_coalesce_witness :
  let w' := run_ops (assignments [(PStr "dpi", PInt 800, 1%nat); (PStr "dpi", PInt 1600, 1%nat);
                                  (PStr "smart-shift", PInt 12, 1%nat)]) one_mouse_store in
  yaml_file w' = NoFile ∧ timers w' = [0%nat].
Proof.
  pose proof (deferred_assignments_coalesce one_mouse_store
    [(PStr "dpi", PInt 800, 1%nat); (PStr "dpi", PInt 1600, 1%nat);
     (PStr "smart-shift", PInt 12, 1%nat)]
    eq_refl eq_refl eq_refl ltac:(discriminate) eq_refl ltac:(discriminate))
    as (H1 & _ & H2 & _).
  exact (conj H1 H2).
Defined.

Ltac world_cases w :=
  destruct w as [cfg st df ts nt yf jf de mo wr sc]; cbn in *; subst;
  unfold _DeviceEntry__setitem__, save, do_save, timer_wakes, mutate_entry in *; cbn in *.

Lemma run_op_undeferred n o w : undeferred_state n w → undeferred_state n (run_op o w).
Proof.
  unfold undeferred_state. intros (Hd & Ht & Hts & Hn).
  destruct o as [defer| |t|key value i]; world_cases w.
  - destruct cfg, defer, de, mo, wr; cbn; done.
  - destruct de, wr; cbn; done.
  - done.
  - destruct (<[i:=_]> cfg); [done|]. destruct de, mo, wr; cbn; done.
Qed.

Lemma run_ops_undeferred n ops w : undeferred_state n w → undeferred_state n (run_ops ops w).
Proof.
  revert w. induction ops as [|o ops IH]; intros w H; [done|].
  cbn. apply IH. by apply run_op_undeferred.
Qed.

(** X7.  While [defer_saves] is false (the value the module sets), no
    sequence of saves, writes and item assignments ever creates or sets a
    timer, and every [save], deferred or not, on a non-empty document with a
    usable directory and file writes the current document at once. *)
Theorem no_timer_without_deferral (w : world) (ops : list op) :
  defer_saves w = false → save_timer w = None → timers w = [] →
  let w' := run_ops ops w in
  save_timer w' = None ∧ timers w' = [] ∧ next_timer w' = next_timer w
  ∧ ∀ defer, _config w' ≠ [] → dir_exists w' || makedirs_ok w' = true →
             writable w' = true →
             yaml_file (save defer w') = Content (dumped (_config w')).
Proof.
  intros Hd Ht Hts w'.
  assert (H : undeferred_state (next_timer w) w') by (by apply run_ops_undeferred).
  clearbody w'. destruct H as (Hd' & Ht' & Hts' & Hn').
  split; [done|]. split; [done|]. split; [done|].
  intros defer Hc Hdir Hwr. clear Hd Ht Hts. world_cases w'.
  destruct cfg; [done|]. destruct defer, de, mo; cbn in *; done.
Qed.

Lemma no_timer_without_deferral_witness :
  let w := World [PStr "1.1.11"; PDict _DeviceEntry []] None false [] 0
             NoFile NoFile false true true [] in
  timers (run_ops [OpSetitem (PStr "dpi") (PInt 800) 1; OpSave true; OpDoSave] w) = [].
Proof.
  exact (proj1 (proj2 (no_timer_without_deferral
    (World [PStr "1.1.11"; PDict _DeviceEntry []] None false [] 0
       NoFile NoFile false true true [])
    [OpSetitem (PStr "dpi") (PInt 800) 1; OpSave true; OpDoSave] eq_refl eq_refl eq_refl))).
Defined.

Lemma run_op_unwritable (content : file) o w :
  unwritable w ∧ yaml_file w = content →
  unwritable (run_op o w) ∧ yaml_file (run_op o w) = content.
Proof.
  unfold unwritable. intros [H Hy].
  destruct o as [defer| |t|key value i]; world_cases w.
  - destruct cfg; [done|].
    destruct defer, df, de, mo, wr, st; cbn;
      destruct H as [?|[? ?]]; try discriminate; auto.
  - destruct de, wr, st; cbn; destruct H as [?|[? ?]]; try discriminate; auto.
  - done.
  - destruct (<[i:=_]> cfg); [done|].
    destruct df, de, mo, wr, st; cbn;
      destruct H as [?|[? ?]]; try discriminate; auto.
Qed.

(** X8.  When [config.yaml] cannot be written (no permission, or a missing
    directory that cannot be created), no sequence of saves, writes, timer
    expiries and item assignments changes the file: the failures are
    absorbed, and the file stays unwritable as far as the module goes. *)
Theorem unwritable_file_unchanged (w : world) (ops : list op) :
  unwritable w →
  yaml_file (run_ops ops w) = yaml_file w ∧ unwritable (run_ops ops w).
Proof.
  intros H.
  assert (Hinv : unwritable (run_ops ops w) ∧ yaml_file (run_ops ops w) = yaml_file w).
  { generalize (eq_refl (yaml_file w)). generalize (yaml_file w) at 2 3 as content.
    revert w H. induction ops as [|o ops IH]; intros w H content Hy; [done|].
    cbn. destruct (run_op_unwritable content o w (conj H Hy)) as [H' Hy']. by apply IH. }
  by destruct Hinv.
Qed.

Lemma unwritable_file_unchanged_witness :
  let w := World [PStr "1.1.11"; PDict _DeviceEntry []] None true [] 0
             NoFile NoFile false false true [] in
  yaml_file (run_ops [OpSetitem (PStr "dpi") (PInt 800) 1; OpSave false; OpDoSave] w) = NoFile.
Proof.
  refine (proj1 (unwritable_file_unchanged
    (World [PStr "1.1.11"; PDict _DeviceEntry []] None true [] 0
       NoFile NoFile false false true [])
    [OpSetitem (PStr "dpi") (PInt 800) 1; OpSave false; OpDoSave] _)).
  right. split; reflexivity.
Defined.

(** ** [persister] and the stored records *)

Lemma find_entry_None wpid serial modelId unitId (config : list pyval) (k : nat) :
  find_entry wpid serial modelId unitId config k = None ↔
  ∀ j d, config !! j = Some (PDict _DeviceEntry d) →
         match_ wpid serial modelId unitId d = false.
Proof.
  revert k. induction config as [|c rest IH]; intros k; cbn [find_entry].
  - split; [|done]. by intros _ j d.
  - split.
    + intros H [|j] d; cbn.
      * intros [= ->]. by destruct (match_ wpid serial modelId unitId d).
      * apply (IH (S k)).
        destruct c as [| | | | |[] d']; try done.
        by destruct (match_ wpid serial modelId unitId d').
    + intros H.
      assert (Hrest : find_entry wpid serial modelId unitId rest (S k) = None).
      { apply IH. intros j d Hj. by apply (H (S j) d). }
      destruct c as [| | | | |[] d']; try done.
      by rewrite (H 0%nat d' eq_refl).
Qed.

(** What [persister] does once the document is loaded: it returns [None] and
    changes nothing, or it updates an entry of the document, or it appends
    an empty entry and updates it; in the last two cases no entry before the
    returned one matches the device. *)
Lemma persister_cases version device w r w' :
  persister version device w = Ok (r, w') →
  ∃ w0, ensure_loaded version w = Ok w0
    ∧ (r = None ∧ w' = w0
       ∨ ∃ i w1, r = Some i
           ∧ (w1 = w0 ∧ (i < List.length (_config w0))%nat
              ∨ w1 = set_config (_config w0 ++ [PDict _DeviceEntry []]) w0
                ∧ i = List.length (_config w0))
           ∧ w' = _DeviceEntry_update (Device.name device) (Device.wpid device)
                    (Device.serial device) (persister_modelId device)
                    (persister_unitId device) i w1
           ∧ ∀ j d, (j < i)%nat → _config w0 !! j = Some (PDict _DeviceEntry d) →
                    match_ (Device.wpid device) (Device._serial device)
                      (persister_modelId device) (persister_unitId device) d = false).
Proof.
  unfold persister. destruct (ensure_loaded version w) as [w0|]; [|done].
  cbn [mbind result_bind]. intros H. exists w0. split; [done|].
  destruct (find_entry _ _ _ _ (_config w0) 0) as [j|] eqn:Hfind.
  - destruct (find_entry_lookup _ _ _ _ _ _ Hfind) as (d & Hd & He & Ht).
    rewrite He, Ht in H. injection H as <- <-.
    right. exists j, w0. split; [done|]. split; [left; split; [done|by eapply lookup_lt_Some]|].
    split; [done|].
    apply find_entry_first in Hfind as (d' & _ & _ & Hfirst). done.
  - pose proof (proj1 (find_entry_None _ _ _ _ _ _) Hfind) as Hnone.
    destruct (negb (Device.online device)).
    + injection H as <- <-. by left.
    + injection H as <- <-. right. eexists _, _. split; [done|].
      split; [by right|]. split; [done|]. intros j d _. apply Hnone.
Qed.

Lemma ensure_loaded_nonempty version w : _config w ≠ [] → ensure_loaded version w = Ok w.
Proof. unfold ensure_loaded. by destruct (_config w). Qed.

(** X9.  [persister] never removes or reorders a record and touches at most
    one: the document keeps its length or grows by one, every element other
    than the returned one is what it was after the lazy load, and nothing but
    [_config] changes (no file is written, no save is requested, no timer is
    started). *)
Theorem persister_keeps_other_records
    (version : string) (device : Device.t) (w w0 w' : world) (r : option nat) :
  ensure_loaded version w = Ok w0 →
  persister version device w = Ok (r, w') →
  (List.length (_config w0) ≤ List.length (_config w') ≤ S (List.length (_config w0)))%nat
  ∧ (∀ j, (j < List.length (_config w0))%nat → r ≠ Some j →
          _config w' !! j = _config w0 !! j)
  ∧ set_config (_config w0) w' = w0.
Proof.
  intros Hload Hp. apply persister_cases in Hp as (w0' & Hload' & Hcases).
  rewrite Hload in Hload'. injection Hload' as <-.
  destruct Hcases as [[-> ->] | (i & w1 & -> & Hw1 & -> & _)].
  - split; [lia|]. split; [done|]. by destruct w0.
  - unfold _DeviceEntry_update, mutate_entry. cbn [_config set_config].
    rewrite length_insert.
    destruct Hw1 as [[-> Hi] | [-> ->]]; cbn [_config set_config].
    + split; [lia|]. split; [|by destruct w0].
      intros j Hj Hne. apply list_lookup_insert_ne. congruence.
    + rewrite length_app. cbn [List.length]. split; [lia|]. split; [|by destruct w0].
      intros j Hj Hne. rewrite list_lookup_insert_ne by congruence.
      by apply lookup_app_l.
Qed.

Lemma persister_keeps_other_records_witness :
  ∃ w',
    persister "1.1.11" zero_keyboard one_mouse_store = Ok (Some 2%nat, w')
    ∧ _config w' !! 1%nat = _config one_mouse_store !! 1%nat.
Proof.
  eexists. split; [reflexivity|].
  refine (proj1 (proj2 (persister_keeps_other_records "1.1.11" zero_keyboard one_mouse_store
    one_mouse_store _ (Some 2%nat) eq_refl eq_refl)) 1%nat _ _).
  - cbn. lia.
  - discriminate.
Defined.

Lemma truthy_attr (a : option string) :
  truthy (of_attr a) = true → ∃ x, a = Some x ∧ x ≠ "".
Proof.
  destruct a as [x|]; [|done]. cbn. intros H. exists x. split; [done|].
  intros ->. done.
Qed.

(** After [update] with the identity of an identifiable device whose [serial]
    is its cached [_serial], the entry matches the device. *)
Lemma update_matches (device : Device.t) (d : pydict) :
  Device.serial device = Device._serial device →
  identifiable device = true →
  match_ (Device.wpid device) (Device._serial device)
    (persister_modelId device) (persister_unitId device)
    (update (Device.name device) (Device.wpid device) (Device.serial device)
       (persister_modelId device) (persister_unitId device) d) = true.
Proof.
  intros Hserial Hid. apply match_spec.
  destruct (update_settles (Device.name device) (Device.wpid device) (Device.serial device)
              (persister_modelId device) (persister_unitId device) d)
    as (_ & Hw & Hs & Hm & Hu). cbn zeta in *.
  set (d' := update _ _ _ _ _ d) in *. clearbody d'.
  unfold identifiable in Hid. apply orb_true_iff in Hid as [Hid|Hid];
    apply andb_true_iff in Hid as [Ha Hb];
    apply truthy_attr in Ha as (x & Hx & Hxne); apply truthy_attr in Hb as (y & Hy & Hyne).
  - left. exists x, y. rewrite Hserial, Hy in Hs. rewrite Hx in Hw.
    repeat split; try done; by apply settled_get.
  - right. exists x, y. rewrite Hx in Hm. rewrite Hy in Hu.
    repeat split; try done; by apply settled_get.
Qed.

(** X10.  For a device with a usable identity pair whose [serial] is its
    cached [_serial], a second call of [persister] returns the entry that the
    first call returned and changes nothing: no second record is created. *)
Theorem persister_again
    (version : string) (device : Device.t) (w w1 : world) (i : nat) :
  Device.serial device = Device._serial device →
  identifiable device = true →
  persister version device w = Ok (Some i, w1) →
  persister version device w1 = Ok (Some i, w1).
Proof.
  intros Hserial Hid Hp.
  apply persister_cases in Hp as (w0 & _ & [[? _] | (i' & w1' & [= <-] & Hw1 & -> & Hfirst)]);
    [done|].
  set (f := update (Device.name device) (Device.wpid device) (Device.serial device)
              (persister_modelId device) (persister_unitId device)) in *.
  assert (Hlt : (i < List.length (_config w1'))%nat).
  { destruct Hw1 as [[-> ?] | [-> ->]]; [done|].
    cbn [_config set_config]. rewrite length_app. cbn. lia. }
  assert (Hbefore : ∀ j d, (j < i)%nat → _config w1' !! j = Some (PDict _DeviceEntry d) →
            match_ (Device.wpid device) (Device._serial device)
              (persister_modelId device) (persister_unitId device) d = false).
  { destruct Hw1 as [[-> ?] | [-> ->]]; [done|].
    intros j d Hj. cbn [_config set_config]. rewrite lookup_app_l by done. by apply Hfirst. }
  unfold _DeviceEntry_update. fold f.
  assert (Hfind : find_entry (Device.wpid device) (Device._serial device)
            (persister_modelId device) (persister_unitId device)
            (_config (mutate_entry i f w1')) 0 = Some i).
  { apply find_entry_first. exists (f (entry_at i w1')).
    unfold mutate_entry. cbn [_config set_config].
    split; [by apply list_lookup_insert_eq|].
    split; [by apply update_matches|].
    intros j d Hj. rewrite list_lookup_insert_ne by lia. by apply Hbefore. }
  unfold persister. rewrite ensure_loaded_nonempty.
  2:{ apply mutate_entry_config_nonempty. destruct (_config w1'); [cbn in Hlt; lia|done]. }
  cbn [mbind result_bind]. rewrite Hfind.
  rewrite entry_at_mutate_lt by done.
  pose proof (match_nonempty _ _ _ _ _ (update_matches device (entry_at i w1') Hserial Hid))
    as Ht.
  fold f in Ht. rewrite Ht.
  unfold _DeviceEntry_update. fold f.
  rewrite mutate_entry_idempotent; [done|].
  intros d. apply update_idempotent.
Qed.

Lemma persister_again_witness :
  ∃ w1, persister "1.1.11" zero_keyboard one_mouse_store = Ok (Some 2%nat, w1)
        ∧ persister "1.1.11" zero_keyboard w1 = Ok (Some 2%nat, w1).
Proof.
  eexists. split; [reflexivity|].
  exact (persister_again "1.1.11" zero_keyboard one_mouse_store _ 2 eq_refl eq_refl eq_refl).
Defined.

Lemma match_unidentifiable (device : Device.t) (d : pydict) :
  identifiable device = false →
  match_ (Device.wpid device) (Device._serial device)
    (persister_modelId device) (persister_unitId device) d = false.
Proof.
  unfold identifiable, match_. intros H.
  apply orb_false_iff in H as [H1 H2].
  apply andb_false_iff in H1, H2.
  apply orb_false_iff. split.
  - destruct H1 as [-> | ->]; [done|]. by rewrite andb_false_r.
  - destruct H2 as [-> | ->]; [done|]. by rewrite andb_false_r.
Qed.

(** X11.  A device that is online but has no usable identity pair (no
    non-empty wpid with serial, no non-empty modelId with unitId) matches no
    record: every call of [persister] appends a new record for it. *)
Theorem persister_unidentifiable_appends
    (version : string) (device : Device.t) (w w0 : world) :
  identifiable device = false →
  Device.online device = true →
  ensure_loaded version w = Ok w0 →
  ∃ w', persister version device w = Ok (Some (List.length (_config w0)), w')
        ∧ List.length (_config w') = S (List.length (_config w0)).
Proof.
  intros Hid Hon Hload. unfold persister. rewrite Hload. cbn [mbind result_bind].
  rewrite (proj2 (find_entry_None _ _ _ _ (_config w0) 0%nat));
    [|intros j d _; by apply match_unidentifiable].
  rewrite Hon. cbn [negb]. eexists. split; [done|].
  unfold _DeviceEntry_update, mutate_entry. cbn [_config set_config].
  rewrite length_insert, length_app. cbn. lia.
Qed.

Lemma persister_unidentifiable_appends_witness :
  let mouse := Device.Make (Some "Mouse") (Some "Mouse") (Some "4082") None None None None true in
  ∃ w1 w2,
    persister "1.1.11" mouse empty_store = Ok (Some 1%nat, w1)
    ∧ persister "1.1.11" mouse w1 = Ok (Some 2%nat, w2).
Proof.
  cbn zeta.
  destruct (persister_unidentifiable_appends "1.1.11"
    (Device.Make (Some "Mouse") (Some "Mouse") (Some "4082") None None None None true)
    empty_store empty_store eq_refl eq_refl eq_refl) as (w1 & H1 & _).
  exists w1. eexists. split; [exact H1|].
  injection H1 as <-. reflexivity.
Defined.

(** ** Sensitivity policies *)

Lemma save_config (defer : bool) (w : world) : _config (save defer w) = _config w.
Proof.
  unfold save, do_save. destruct w as [cfg st df ts nt yf jf de mo wr sc]. cbn.
  destruct cfg; [done|]. destruct de, mo, defer, df, st, wr; done.
Qed.

Lemma save_save_calls (defer : bool) (w : world) :
  save_calls (save defer w) = defer :: save_calls w.
Proof.
  unfold save, do_save. destruct w as [cfg st df ts nt yf jf de mo wr sc]. cbn.
  destruct cfg; [done|]. destruct de, mo, defer, df, st, wr; done.
Qed.

Lemma entry_at_setitem (key value : pyval) (i : nat) (w : world) :
  (i < List.length (_config w))%nat →
  entry_at i (_DeviceEntry__setitem__ key value i w) = dict_setitem key value (entry_at i w).
Proof.
  intros Hlt. unfold _DeviceEntry__setitem__.
  unfold entry_at at 1. rewrite save_config. by apply entry_at_mutate_lt.
Qed.

(** X12.  [set_sensitivity] followed by [get_sensitivity]: on a stored entry
    whose [_sensitive] value is a dictionary or is missing, setting a policy
    that differs from the stored one makes [get_sensitivity] return it,
    requests exactly one save, deferred, and leaves the other keys of the
    entry alone; setting the policy that is stored changes nothing and
    requests no save. *)
Theorem set_then_get_sensitivity
    (name : string) (value : pyval) (i : nat) (w : world) (c : dict_class) (ss : pydict) :
  (i < List.length (_config w))%nat →
  sensitives_of (entry_at i w) = PDict c ss →
  ∃ w', set_sensitivity name value i w = Ok w'
    ∧ if py_eq (dict_get ss (PStr name)) value then w' = w
      else get_sensitivity name (entry_at i w') = Ok value
           ∧ save_calls w' = true :: save_calls w
           ∧ ∀ key, key ≠ _KEY_SENSITIVE →
               dict_lookup (PStr key) (entry_at i w') = dict_lookup (PStr key) (entry_at i w).
Proof.
  intros Hlt Hss. unfold set_sensitivity. rewrite Hss.
  destruct (py_eq (dict_get ss (PStr name)) value); cbn [negb]; [by exists w|].
  eexists. split; [done|].
  rewrite entry_at_setitem by done.
  split; [|split].
  - unfold get_sensitivity, sensitives_of. rewrite dict_lookup_setitem_eq. cbn.
    by rewrite dict_lookup_setitem_eq.
  - unfold _DeviceEntry__setitem__. by rewrite save_save_calls.
  - intros key Hkey. by apply dict_lookup_setitem_ne.
Qed.

Lemma set_then_get_sensitivity_witness :
  ∃ w', set_sensitivity "hires-scroll-mode" (PBool true) 1 one_mouse_store = Ok w'
        ∧ get_sensitivity "hires-scroll-mode" (entry_at 1 w') = Ok (PBool true).
Proof.
  destruct (set_then_get_sensitivity "hires-scroll-mode" (PBool true) 1 one_mouse_store
              PlainDict [] ltac:(cbn; lia) eq_refl) as (w' & Hset & Hget).
  exists w'. split; [exact Hset|]. exact (proj1 Hget).
Defined.

Lemma divert_stage_lookup (k : string) (data data1 : pydict) :
  k ≠ "divert-keys" → k ≠ "dpi-sliding" → k ≠ "mouse-gestures" →
  (truthy (dict_get data (PStr "divert-keys")) = false ∧ data1 = data
   ∨ truthy (dict_get data (PStr "divert-keys")) = true
     ∧ ∃ items,
         data1 = dict_setitem (PStr "divert-keys")
                   (PDict PlainDict (List.filter (fun kv => is_int kv.1) items))
                   (dict_pop (PStr "mouse-gestures") (dict_pop (PStr "dpi-sliding") data))) →
  dict_lookup (PStr k) data1 = dict_lookup (PStr k) data.
Proof.
  intros H1 H2 H3 [[_ ->] | (_ & items & ->)]; [done|].
  rewrite dict_lookup_setitem_ne by done. by rewrite !dict_lookup_pop_ne.
Qed.

(** X13.  For a loaded record without a [_sensitive] value, the entry that
    [_device_entry_from_config_dict] builds answers ["ignore"] to
    [get_sensitivity] for the three scroll-wheel settings and [False] for
    every other setting. *)
Theorem parsed_entry_default_sensitivity
    (data d : pydict) (discard : bool) (c : dict_class) (name : string) :
  dict_get data (PStr _KEY_SENSITIVE) = PNone →
  _device_entry_from_config_dict data discard = Ok (PDict c d) →
  get_sensitivity name d =
    Ok (if bool_decide (name ∈ ["hires-smooth-resolution"; "hires-smooth-invert";
                                "hires-scroll-mode"])
        then PStr "ignore" else PBool false).
Proof.
  intros Hnone H. apply device_entry_stages in H as (data1 & Hdata1 & [= -> ->] & _).
  unfold get_sensitivity, sensitives_of.
  rewrite discard_stage_lookup by done.
  assert (Hget1 : dict_get data1 (PStr _KEY_SENSITIVE) = PNone).
  { unfold dict_get. by rewrite (divert_stage_lookup _ data data1). }
  rewrite Hget1, dict_lookup_setitem_eq. unfold default_sensitive. cbn -[String.eqb].
  case_bool_decide as Hin.
  - rewrite !elem_of_cons in Hin.
    destruct Hin as [-> | [-> | [-> | Hnil]]]; try reflexivity.
    by apply elem_of_nil in Hnil.
  - destruct (String.eqb_spec name "hires-smooth-resolution") as [-> | _];
      [exfalso; apply Hin; repeat constructor|].
    destruct (String.eqb_spec name "hires-smooth-invert") as [-> | _];
      [exfalso; apply Hin; repeat constructor|].
    destruct (String.eqb_spec name "hires-scroll-mode") as [-> | _];
      [exfalso; apply Hin; repeat constructor|].
    done.
Qed.

Lemma parsed_entry_default_sensitivity_witness :
  get_sensitivity "hires-scroll-mode"
    [(PStr "_NAME", PStr "Mouse"); (PStr "_sensitive", default_sensitive)]
  = Ok (PStr "ignore").
Proof.
  exact (parsed_entry_default_sensitivity [(PStr "_NAME", PStr "Mouse")] _ false
           _DeviceEntry "hires-scroll-mode" eq_refl eq_refl).
Defined.

(** ** Loading *)

(** X14.  An unreadable [config.yaml] (the legacy file is then not looked
    at) and the absence of both files give the document with the version
    only.  When [config.yaml] is absent and [config.json] cannot be read or
    does not hold a mapping, [_load] raises [AttributeError], and so does a
    call of [persister] that has to load. *)
Theorem load_fallbacks (version : string) (w : world) :
  (yaml_file w = Unreadable ∨ (yaml_file w = NoFile ∧ json_file w = NoFile) →
   _load version w = Ok (set_config [PStr version] w))
  ∧ (yaml_file w = NoFile →
     json_file w = Unreadable ∨ (∃ v, json_file w = Content v ∧ is_dict v = false) →
     _load version w = Raise AttributeError
     ∧ ∀ device, _config w = [] → persister version device w = Raise AttributeError).
Proof.
  split.
  - unfold _load. intros [-> | [-> ->]]; done.
  - intros Hy Hj.
    assert (Hload : _load version w = Raise AttributeError).
    { unfold _load. rewrite Hy. destruct Hj as [-> | (v & -> & Hv)]; [done|].
      by destruct v. }
    split; [done|]. intros device Hc. unfold persister, ensure_loaded.
    by rewrite Hc, Hload.
Qed.

(** ** [update] leaves the rest of a record alone *)

Lemma update_field_lookup_ne key key' value self :
  key ≠ key' →
  dict_lookup (PStr key') (update_field key value self) = dict_lookup (PStr key') self.
Proof.
  intros Hne. unfold update_field.
  destruct (_ && _); [|done]. by apply dict_lookup_setitem_ne.
Qed.

Lemma update_field_falsy key value self :
  truthy (of_attr value) = false → update_field key value self = self.
Proof. unfold update_field. by intros ->. Qed.

Lemma update_field_unchanged key key' value self :
  truthy (of_attr value) = false ∨ key ≠ key' →
  dict_lookup (PStr key') (update_field key value self) = dict_lookup (PStr key') self.
Proof.
  intros [H | H]; [by rewrite update_field_falsy|by apply update_field_lookup_ne].
Qed.

Lemma dict_setitem_keeps (k k' v : pyval) (d : pydict) :
  is_Some (dict_lookup k' d) → is_Some (dict_lookup k' (dict_setitem k v d)).
Proof.
  induction d as [|[k1 v1] d IH]; cbn [dict_setitem dict_lookup].
  - by intros [? ?].
  - destruct (scalar_eq k k1); cbn [dict_lookup]; destruct (scalar_eq k' k1); eauto.
Qed.

Lemma update_field_keeps key value k' self :
  is_Some (dict_lookup k' self) → is_Some (dict_lookup k' (update_field key value self)).
Proof.
  unfold update_field. destruct (_ && _); [|done]. apply dict_setitem_keeps.
Qed.

(** X15.  [update] touches the five identity keys only: every other string
    key keeps its value, no key of the record is removed, and an identity
    attribute that is [None] or empty leaves the stored field as it is. *)
Theorem update_frame (name wpid serial modelId unitId : option string) (self : pydict) :
  let self' := update name wpid serial modelId unitId self in
  (∀ key, key ∉ [_KEY_NAME; _KEY_WPID; _KEY_SERIAL; _KEY_MODEL_ID; _KEY_UNIT_ID] →
          dict_lookup (PStr key) self' = dict_lookup (PStr key) self)
  ∧ (∀ k, is_Some (dict_lookup k self) → is_Some (dict_lookup k self'))
  ∧ (∀ key value,
       (key, value) ∈ [(_KEY_NAME, name); (_KEY_WPID, wpid); (_KEY_SERIAL, serial);
                       (_KEY_MODEL_ID, modelId); (_KEY_UNIT_ID, unitId)] →
       truthy (of_attr value) = false →
       dict_lookup (PStr key) self' = dict_lookup (PStr key) self).
Proof.
  cbn zeta. unfold update. split; [|split].
  - intros key Hkey. rewrite !elem_of_cons in Hkey.
    rewrite !update_field_lookup_ne; [done|..]; intros <-; apply Hkey; auto 10.
  - intros k Hk. by do 5 apply update_field_keeps.
  - intros key value Hin Hfalsy. rewrite !elem_of_cons in Hin.
    destruct Hin as [[= -> ->] | [[= -> ->] | [[= -> ->] | [[= -> ->] | [[= -> ->] | Hnil]]]]];
      [..|by apply elem_of_nil in Hnil];
      by rewrite !update_field_unchanged by (first [by left | by right]).
Qed.

(** ** The legacy converter and the identity of a record *)

Lemma scalar_eq_sym (a b : pyval) : scalar_eq a b = scalar_eq b a.
Proof.
  destruct a, b; cbn; try done.
  - by destruct b, b0.
  - apply Z.eqb_sym.
  - apply Z.eqb_sym.
  - apply Z.eqb_sym.
  - apply String.eqb_sym.
Qed.

Lemma dict_lookup_setitem_other (q : string) (k v : pyval) (d : pydict) :
  scalar_eq (PStr q) k = false →
  dict_lookup (PStr q) (dict_setitem k v d) = dict_lookup (PStr q) d.
Proof.
  intros Hk. induction d as [|[k1 v1] d IH]; cbn [dict_setitem dict_lookup].
  - by rewrite Hk.
  - destruct (scalar_eq k k1) eqn:E; cbn [dict_lookup]; [|by rewrite IH].
    destruct (scalar_eq (PStr q) k1) eqn:E'; [|done].
    apply scalar_eq_str_l in E'. subst k1.
    rewrite scalar_eq_sym in E. congruence.
Qed.

Lemma dict_lookup_setitem_still_None (k k' v : pyval) (d : pydict) :
  dict_lookup k' d = None → scalar_eq k' k = false →
  dict_lookup k' (dict_setitem k v d) = None.
Proof.
  intros Hd Hk. induction d as [|[k1 v1] d IH]; cbn [dict_setitem dict_lookup] in *.
  - by rewrite Hk.
  - destruct (scalar_eq k' k1) eqn:E'; [discriminate|].
    destruct (scalar_eq k k1); cbn [dict_lookup]; rewrite E'; auto.
Qed.

Lemma unique_keys_setitem_any (k v : pyval) (d : pydict) :
  unique_keys d → unique_keys (dict_setitem k v d).
Proof.
  induction d as [|[k1 v1] d IH]; cbn [dict_setitem unique_keys]; [done|].
  intros [Hk1 Hd]. destruct (scalar_eq k k1) eqn:E; cbn [unique_keys]; [done|].
  split; [|auto]. apply dict_lookup_setitem_still_None; [done|].
  by rewrite scalar_eq_sym.
Qed.

Lemma unique_keys_in_lookup (q : string) (v : pyval) (d : pydict) :
  unique_keys d → (PStr q, v) ∈ d → dict_lookup (PStr q) d = Some v.
Proof.
  induction d as [|[k1 v1] d IH]; cbn [unique_keys dict_lookup].
  - intros _ H. by apply elem_of_nil in H.
  - intros [Hk1 Hd] Hin. apply elem_of_cons in Hin as [[= <- <-] | Hin].
    + by rewrite scalar_eq_str_refl.
    + destruct (scalar_eq (PStr q) k1) eqn:E; [|auto].
      apply scalar_eq_str_l in E. subst k1. rewrite (IH Hd Hin) in Hk1. discriminate.
Qed.

Lemma convert_settings_underscore (q : string) (items dev dev' : pydict) :
  startswith_underscore q = true →
  (∀ v, (PStr q, v) ∈ items → dict_lookup (PStr q) dev = Some v) →
  convert_settings items dev = Ok dev' →
  dict_lookup (PStr q) dev' = dict_lookup (PStr q) dev.
Proof.
  intros Hq. revert dev. induction items as [|[k v] items IH]; intros dev Hitems.
  - cbn. by intros [= ->].
  - cbn [convert_settings].
    destruct (scalar_eq (PStr q) k) eqn:E.
    + apply scalar_eq_str_l in E. subst k.
      replace (match v with
               | PDict _ sub =>
                   if negb (startswith_underscore q)
                   then PDict PlainDict <$> convert_subkeys sub []
                   else Ok v
               | _ => Ok v
               end) with (Ok v) by (rewrite Hq; by destruct v).
      cbn [mbind result_bind].
      rewrite (dict_setitem_same q v dev) by (apply Hitems; by left).
      intros H. apply IH; [|done]. intros v' Hin. apply Hitems. by right.
    + destruct (match k with
                | PStr s =>
                    match v with
                    | PDict _ sub =>
                        if negb (startswith_underscore s)
                        then PDict PlainDict <$> convert_subkeys sub []
                        else Ok v
                    | _ => Ok v
                    end
                | _ => Ok v
                end) as [v'|]; [|done].
      cbn [mbind result_bind]. intros H.
      rewrite (IH (dict_setitem k v' dev)); [by apply dict_lookup_setitem_other| |done].
      intros v0 Hin. rewrite dict_lookup_setitem_other by done. apply Hitems. by right.
Qed.

Lemma convert_settings_unique (items dev dev' : pydict) :
  unique_keys dev → convert_settings items dev = Ok dev' → unique_keys dev'.
Proof.
  revert dev. induction items as [|[k v] items IH]; intros dev Hu.
  - cbn. by intros [= <-].
  - cbn [convert_settings].
    destruct (match k with
              | PStr s =>
                  match v with
                  | PDict _ sub =>
                      if negb (startswith_underscore s)
                      then PDict PlainDict <$> convert_subkeys sub []
                      else Ok v
                  | _ => Ok v
                  end
              | _ => Ok v
              end) as [v'|]; [|done].
    cbn [mbind result_bind]. apply IH. by apply unique_keys_setitem_any.
Qed.

Lemma drop_legacy_booleans_lookup (q : string) (ks : list string) (dev : pydict) :
  q ∉ ks →
  dict_lookup (PStr q) (drop_legacy_booleans ks dev) = dict_lookup (PStr q) dev.
Proof.
  revert dev. induction ks as [|k ks IH]; intros dev Hq; [done|].
  cbn [drop_legacy_booleans]. rewrite not_elem_of_cons in Hq. destruct Hq as [Hk Hks].
  rewrite IH by done.
  destruct (dict_get dev (PStr k)); try done. by apply dict_lookup_pop_ne.
Qed.

Lemma drop_legacy_booleans_unique (ks : list string) (dev : pydict) :
  unique_keys dev → unique_keys (drop_legacy_booleans ks dev).
Proof.
  revert dev. induction ks as [|k ks IH]; intros dev Hu; [done|].
  cbn [drop_legacy_booleans]. apply IH.
  destruct (dict_get dev (PStr k)); try done. by apply unique_keys_pop.
Qed.

(** X16.  A converted legacy record keeps its class and has, under [_wpid]
    and [_serial], the record's own values when they are non-empty and the
    two parts of the key otherwise; it has no [_name] key, and the value that
    was under [_name] is under [_NAME].  (The keys of the record are pairwise
    different, as in every JSON object that [json.load] returns.) *)
Theorem convert_device_identity
    (key0 key1 : string) (c : dict_class) (d : pydict) (dev' : pyval) :
  unique_keys d →
  convert_device key0 key1 (PDict c d) = Ok dev' →
  ∃ d', dev' = PDict c d'
    ∧ dict_get d' (PStr _KEY_WPID)
      = (if truthy (dict_get d (PStr _KEY_WPID)) then dict_get d (PStr _KEY_WPID)
         else PStr key0)
    ∧ dict_get d' (PStr _KEY_SERIAL)
      = (if truthy (dict_get d (PStr _KEY_SERIAL)) then dict_get d (PStr _KEY_SERIAL)
         else PStr key1)
    ∧ dict_lookup (PStr "_name") d' = None
    ∧ (∀ v, dict_lookup (PStr "_name") d = Some v → dict_lookup (PStr _KEY_NAME) d' = Some v)
    ∧ unique_keys d'.
Proof.
  intros Hu. cbn [convert_device].
  set (wpid := if truthy (dict_get d (PStr _KEY_WPID)) then dict_get d (PStr _KEY_WPID)
               else PStr key0).
  set (d1 := dict_setitem (PStr _KEY_WPID) wpid d).
  assert (Hserial : dict_get d1 (PStr _KEY_SERIAL) = dict_get d (PStr _KEY_SERIAL))
    by (by apply dict_get_setitem_ne).
  rewrite Hserial.
  set (serial := if truthy (dict_get d (PStr _KEY_SERIAL)) then dict_get d (PStr _KEY_SERIAL)
                 else PStr key1).
  set (d2 := dict_setitem (PStr _KEY_SERIAL) serial d1).
  assert (Hu2 : unique_keys d2) by (by apply unique_keys_setitem, unique_keys_setitem).
  destruct (convert_settings d2 d2) as [d3|] eqn:Hsettings; [|done].
  cbn [mbind result_bind].
  assert (Hu3 : unique_keys d3) by (by eapply convert_settings_unique).
  assert (Hunder : ∀ q, startswith_underscore q = true →
            dict_lookup (PStr q) d3 = dict_lookup (PStr q) d2).
  { intros q Hq. apply (convert_settings_underscore q d2 d2 d3 Hq); [|done].
    intros v. by apply unique_keys_in_lookup. }
  set (d4 := drop_legacy_booleans ["mouse-gestures"; "dpi-sliding"] d3).
  assert (Hu4 : unique_keys d4) by (by apply drop_legacy_booleans_unique).
  assert (Hd4 : ∀ q, startswith_underscore q = true →
            dict_lookup (PStr q) d4 = dict_lookup (PStr q) d2).
  { intros q Hq. subst d4. rewrite drop_legacy_booleans_lookup; [by apply Hunder|].
    rewrite !not_elem_of_cons. split; [by intros ->|]. split; [by intros ->|].
    apply not_elem_of_nil. }
  assert (Hname2 : dict_lookup (PStr "_name") d2 = dict_lookup (PStr "_name") d).
  { subst d2 d1. by rewrite !dict_lookup_setitem_ne. }
  assert (Hwpid2 : dict_lookup (PStr _KEY_WPID) d2 = Some wpid).
  { subst d2 d1. rewrite dict_lookup_setitem_ne by done. apply dict_lookup_setitem_eq. }
  assert (Hserial2 : dict_lookup (PStr _KEY_SERIAL) d2 = Some serial).
  { subst d2. apply dict_lookup_setitem_eq. }
  intros [= <-]. eexists. split; [done|].
  unfold dict_contains, dict_get.
  destruct (dict_lookup (PStr "_name") d4) as [n|] eqn:Hn.
  - split; [|split; [|split; [|split]]].
    + rewrite (dict_lookup_pop_ne "_name" _KEY_WPID) by done.
      rewrite (dict_lookup_setitem_ne _KEY_NAME _KEY_WPID) by done.
      by rewrite Hd4, Hwpid2.
    + rewrite (dict_lookup_pop_ne "_name" _KEY_SERIAL) by done.
      rewrite (dict_lookup_setitem_ne _KEY_NAME _KEY_SERIAL) by done.
      by rewrite Hd4, Hserial2.
    + apply dict_lookup_pop_eq. by apply unique_keys_setitem.
    + intros v Hv. rewrite (dict_lookup_pop_ne "_name" _KEY_NAME) by done.
      rewrite dict_lookup_setitem_eq.
      rewrite Hd4, Hname2, Hv in Hn by done. by injection Hn as <-.
    + by apply unique_keys_pop, unique_keys_setitem.
  - split; [|split; [|split; [|split]]].
    + by rewrite Hd4, Hwpid2.
    + by rewrite Hd4, Hserial2.
    + done.
    + intros v Hv. rewrite Hd4, Hname2, Hv in Hn by done. discriminate.
    + done.
Qed.

Lemma convert_device_identity_witness :
  ∃ d', convert_device "AABB" "12345"
          (PDict PlainDict [(PStr "_name", PStr "Mouse"); (PStr "_serial", PStr "S1")])
        = Ok (PDict PlainDict d')
        ∧ dict_get d' (PStr _KEY_WPID) = PStr "AABB"
        ∧ dict_get d' (PStr _KEY_SERIAL) = PStr "S1".
Proof.
  destruct (convert_device_identity "AABB" "12345" PlainDict
              [(PStr "_name", PStr "Mouse"); (PStr "_serial", PStr "S1")] _
              ltac:(cbn; auto) eq_refl) as (d' & [= <-] & Hw & Hs & _).
  eexists. split; [reflexivity|]. split; [exact Hw|exact Hs].
Defined.

(** ** Migration of the legacy [dpi-sliding] setting *)

Lemma dict_lookup_setitem_refl (k v : pyval) (d : pydict) :
  scalar_eq k k = true → dict_lookup k (dict_setitem k v d) = Some v.
Proof.
  intros Hk. induction d as [|[k1 v1] d IH]; cbn [dict_setitem dict_lookup].
  - by rewrite Hk.
  - destruct (scalar_eq k k1) eqn:E; cbn [dict_lookup]; by rewrite E.
Qed.

Lemma dict_lookup_filter_int (n : Z) (d : pydict) :
  dict_lookup (PInt n) (List.filter (fun kv => is_int kv.1) d) = dict_lookup (PInt n) d.
Proof.
  induction d as [|[k1 v1] d IH]; cbn [List.filter dict_lookup fst]; [done|].
  destruct k1; cbn [is_int dict_lookup scalar_eq]; try done; by rewrite IH.
Qed.

(** X17.  A loaded record with a non-empty [divert-keys] dictionary and a
    legacy [dpi-sliding] value that [int] accepts as [n] (and no
    [mouse-gestures] value) becomes an entry whose [divert-keys] maps [n] to
    3 and which has no [dpi-sliding] and no [mouse-gestures] key. *)
Theorem dpi_sliding_migrated
    (data : pydict) (discard : bool) (c : dict_class) (items : pydict) (n : Z) (e : pyval) :
  unique_keys data →
  dict_lookup (PStr "divert-keys") data = Some (PDict c items) → items ≠ [] →
  truthy (dict_get data (PStr "dpi-sliding")) = true →
  py_int (dict_get data (PStr "dpi-sliding")) = Ok n →
  truthy (dict_get data (PStr "mouse-gestures")) = false →
  _device_entry_from_config_dict data discard = Ok e →
  ∃ d items',
    e = PDict _DeviceEntry d
    ∧ dict_lookup (PStr "divert-keys") d = Some (PDict PlainDict items')
    ∧ dict_lookup (PInt n) items' = Some (PInt 3)
    ∧ dict_lookup (PStr "dpi-sliding") d = None
    ∧ dict_lookup (PStr "mouse-gestures") d = None.
Proof.
  intros Hu Hdivert Hitems Hsliding Hint Hgestures.
  assert (Hg : dict_get (dict_pop (PStr "dpi-sliding") data) (PStr "mouse-gestures")
               = dict_get data (PStr "mouse-gestures")).
  { unfold dict_get. by rewrite dict_lookup_pop_ne. }
  unfold _device_entry_from_config_dict. cbn zeta.
  rewrite (dict_get_lookup _ _ _ Hdivert).
  replace (truthy (PDict c items)) with true by (by destruct items).
  unfold inject_divert. rewrite Hsliding, Hint, Hg, Hgestures.
  cbn [mbind result_bind py_setitem].
  unfold new_DeviceEntry. destruct (forallb _ _); [|done].
  intros [= <-]. eexists _, _. split; [done|].
  rewrite !discard_stage_lookup, !sensitive_stage_lookup by done.
  rewrite dict_lookup_setitem_eq, !dict_lookup_setitem_ne by done.
  split; [done|]. split; [|split].
  - rewrite dict_lookup_filter_int. by apply dict_lookup_setitem_refl, Z.eqb_refl.
  - rewrite dict_lookup_pop_ne by done. by apply dict_lookup_pop_eq.
  - apply dict_lookup_pop_eq. by apply unique_keys_pop.
Qed.

Lemma dpi_sliding_migrated_witness :
  ∃ d items',
    PDict _DeviceEntry
      [(PStr "divert-keys", PDict PlainDict [(PInt 82, PInt 0); (PInt 195, PInt 3)]);
       (PStr "_sensitive", default_sensitive)] = PDict _DeviceEntry d
    ∧ dict_lookup (PStr "divert-keys") d = Some (PDict PlainDict items')
    ∧ dict_lookup (PInt 195) items' = Some (PInt 3)
    ∧ dict_lookup (PStr "dpi-sliding") d = None
    ∧ dict_lookup (PStr "mouse-gestures") d = None.
Proof.
  refine (dpi_sliding_migrated
    [(PStr "divert-keys", PDict PlainDict [(PInt 82, PInt 0)]); (PStr "dpi-sliding", PStr "195")]
    false PlainDict [(PInt 82, PInt 0)] 195 _ _ eq_refl _ eq_refl eq_refl eq_refl eq_refl).
  - cbn. auto.
  - discriminate.
Defined.

(** ** Keys and sub-keys of the legacy document *)

Lemma split_colon_nonempty (s : string) : split_colon s ≠ [].
Proof.
  destruct s as [|c r]; cbn [split_colon]; [done|].
  destruct (Ascii.eqb c ":"); [done|]. by destruct (split_colon r).
Qed.

Lemma split_colon_single (s b : string) :
  split_colon s = [b] ↔ s = b ∧ no_colon b = true.
Proof.
  revert b. induction s as [|c r IH]; intros b; cbn [split_colon].
  - split; [by intros [= <-]|by intros [<- _]].
  - destruct (Ascii.eqb c ":") eqn:Ec.
    + split.
      * intros [= _ H]. by apply split_colon_nonempty in H.
      * intros [<- H]. cbn in H. by rewrite Ec in H.
    + destruct (split_colon r) as [|h t] eqn:Hr.
      * by apply split_colon_nonempty in Hr.
      * split.
        -- intros [= <- ->]. destruct (proj1 (IH h) eq_refl) as [-> Hh].
           split; [done|]. cbn. by rewrite Ec.
        -- intros [<- H]. cbn in H. rewrite Ec in H. cbn in H.
           pose proof (proj2 (IH r) (conj eq_refl H)) as Hr'.
           by injection Hr' as -> ->.
Qed.

Lemma split_colon_pair (s a b : string) :
  split_colon s = [a; b] ↔
  s = (a +:+ ":" +:+ b) ∧ no_colon a = true ∧ no_colon b = true.
Proof.
  revert a. induction s as [|c r IH]; intros a; cbn [split_colon].
  - split; [done|]. intros [H _]. by destruct a.
  - destruct (Ascii.eqb c ":") eqn:Ec.
    + apply Ascii.eqb_eq in Ec as ->. split.
      * intros [= <- H]. apply split_colon_single in H as [-> Hb]. done.
      * intros (H & Ha & Hb). destruct a as [|c' a'].
        -- cbn in H. injection H as ->. f_equal. by apply split_colon_single.
        -- cbn in H. injection H as <- _. cbn in Ha. done.
    + destruct (split_colon r) as [|h t] eqn:Hr.
      * by apply split_colon_nonempty in Hr.
      * split.
        -- intros [= <- ->]. destruct (proj1 (IH h) eq_refl) as (-> & Hh & Hb).
           split; [done|]. split; [|done]. cbn. by rewrite Ec.
        -- intros (H & Ha & Hb). destruct a as [|c' a'].
           ++ cbn in H. injection H as -> _. done.
           ++ cbn in H. injection H as <- ->. cbn in Ha. rewrite Ec in Ha. cbn in Ha.
              pose proof (proj2 (IH a') (conj eq_refl (conj Ha Hb))) as Hr'.
              by injection Hr' as -> ->.
Qed.

(** X18.  A key of the legacy document is converted exactly when it holds
    exactly one colon: the key splits into the parts [a] and [b] if and only
    if it is [a], a colon and [b], with no colon in [a] or in [b]; the two
    parts are what the converted record gets as default wpid and serial. *)
Theorem two_part_keys (s : string) :
  (has_two_parts (PStr s) = true ↔
   ∃ a b, s = (a +:+ ":" +:+ b) ∧ no_colon a = true ∧ no_colon b = true)
  ∧ ∀ a b, split_colon s = [a; b] ↔
           s = (a +:+ ":" +:+ b) ∧ no_colon a = true ∧ no_colon b = true.
Proof.
  split; [|intros a b; apply split_colon_pair].
  cbn [has_two_parts]. split.
  - intros H. destruct (split_colon s) as [|a [|b [|? ?]]] eqn:Hs; try done.
    exists a, b. by apply split_colon_pair.
  - intros (a & b & H). apply split_colon_pair in H. by rewrite H.
Qed.

Lemma py_int_of_str_error (s : string) (e : exn) :
  py_int_of_str s = Raise e → e = ValueError.
Proof.
  unfold py_int_of_str.
  match goal with
  | |- match ?signed with Some _ => _ | None => _ end = _ → _ => destruct signed
  end; [done|]. by intros [= <-].
Qed.

Lemma no_str_key_setitem (k v : pyval) (d : pydict) :
  is_str k = false →
  Forall (fun kv => is_str kv.1 = false) d →
  Forall (fun kv => is_str kv.1 = false) (dict_setitem k v d).
Proof.
  intros Hk. induction 1 as [|[k1 v1] d Hk1 Hd IH]; cbn [dict_setitem].
  - by repeat constructor.
  - destruct (scalar_eq k k1); by constructor.
Qed.

Lemma subkey_converted (k : pyval) :
  match (match k with PStr s => PInt <$> py_int_of_str s | _ => Ok k end) with
  | Ok k' => is_str k' = false ∧ ∀ s, k = PStr s → py_int_of_str s ≠ Raise ValueError
  | Raise e => e = ValueError ∧ ∃ s, k = PStr s ∧ py_int_of_str s = Raise ValueError
  end.
Proof.
  destruct k as [| | |s| |]; try (split; [done|]; intros; discriminate).
  destruct (py_int_of_str s) as [z|e] eqn:Hz; cbn.
  - split; [done|]. intros s' [= <-]. by rewrite Hz.
  - pose proof (py_int_of_str_error s e Hz) as ->. split; [done|]. by exists s.
Qed.

Lemma convert_subkeys_spec (items acc : pydict) :
  (∀ d, convert_subkeys items acc = Ok d →
        Forall (fun kv => is_str kv.1 = false) acc →
        Forall (fun kv => is_str kv.1 = false) d)
  ∧ (∀ e, convert_subkeys items acc = Raise e ↔
          e = ValueError
          ∧ ∃ s v, (PStr s, v) ∈ items ∧ py_int_of_str s = Raise ValueError).
Proof.
  revert acc. induction items as [|[k v] items IH]; intros acc.
  - cbn. split; [by intros d [= <-]|].
    intros e. split; [done|]. intros (_ & s & v & Hin & _). by apply elem_of_nil in Hin.
  - cbn [convert_subkeys]. pose proof (subkey_converted k) as Hk.
    destruct (match k with PStr s => PInt <$> py_int_of_str s | _ => Ok k end) as [k'|err];
      cbn [mbind result_bind].
    + destruct Hk as [Hk' Hgood].
      destruct (IH (dict_setitem k' v acc)) as [IHok IHerr]. split.
      * intros d Hd Hacc. apply (IHok d Hd). by apply no_str_key_setitem.
      * intros e. rewrite IHerr. split.
        -- intros (-> & s' & v' & Hin & Hs). split; [done|]. exists s', v'.
           split; [by right|done].
        -- intros (-> & s' & v' & Hin & Hs). split; [done|]. exists s', v'. split; [|done].
           apply elem_of_cons in Hin as [[= <- <-]|Hin]; [|done].
           by destruct (Hgood s' eq_refl).
    + destruct Hk as (-> & s & -> & Hs). split; [done|].
      intros e. split.
      * intros [= <-]. split; [done|]. exists s, v. split; [by left|done].
      * by intros (-> & _).
Qed.

(** X19.  The conversion of the sub-keys of a legacy setting leaves no string
    key: every string sub-key has been replaced by the integer it spells.  It
    raises, and always [ValueError], exactly when some string sub-key is not
    an integer literal. *)
Theorem convert_subkeys_integer_keys (items : pydict) :
  (∀ d, convert_subkeys items [] = Ok d → Forall (fun kv => is_str kv.1 = false) d)
  ∧ (∀ e, convert_subkeys items [] = Raise e ↔
          e = ValueError
          ∧ ∃ s v, (PStr s, v) ∈ items ∧ py_int_of_str s = Raise ValueError).
Proof.
  destruct (convert_subkeys_spec items []) as [Hok Herr].
  split; [|done]. intros d Hd. apply (Hok d Hd). constructor.
Qed.

(** ** The substituted identifiers *)

Lemma persister_ids_of_zero (device : Device.t) (n : string) :
  Device.modelId device = Some zero_id → Device._name device = Some n →
  persister_modelId device = Some n
  ∧ ∀ u s, Device.unitId device = Some u → u ≠ "" → Device._serial device = Some s →
           persister_unitId device = Some s.
Proof.
  intros Hzero Hname. unfold persister_modelId, persister_unitId.
  rewrite Hzero, Hname. split; [done|].
  intros u s Hunit Hu Hserial. rewrite Hunit, Hserial. cbn.
  destruct (String.eqb u "") eqn:E; [apply String.eqb_eq in E; done|done].
Qed.

(** C2 (amended).  For a device whose modelId is the all-zero string and
    whose [_name] is non-empty, the name and the serial stand for the modelId
    and the unitId both when [persister] updates the record that it returns
    and when it compares the device with the stored records.  The record
    returned holds the device's [_name] under [_modelId] and, when the
    device's unitId and [_serial] are non-empty, the device's [_serial] under
    [_unitId].  A stored record that holds the name and the serial under
    [_modelId] and [_unitId] is the one returned, unless an earlier record
    holds the device's wpid and serial or the name and the serial.  A
    document in which no record holds the device's wpid and serial, and none
    holds the name under [_modelId], has no match for the device, whatever
    record holds the all-zero string: for an offline device [persister]
    returns [None]. *)
Theorem persister_stores_substituted_ids (version : string) (device : Device.t) (n : string) :
  Device.modelId device = Some zero_id →
  Device._name device = Some n → n ≠ "" →
  (∀ w w' i, persister version device w = Ok (Some i, w') →
     dict_get (entry_at i w') (PStr _KEY_MODEL_ID) = PStr n
     ∧ ∀ u s, Device.unitId device = Some u → u ≠ "" →
              Device._serial device = Some s → s ≠ "" →
              dict_get (entry_at i w') (PStr _KEY_UNIT_ID) = PStr s)
  ∧ (∀ u s w i d,
       Device.unitId device = Some u → u ≠ "" →
       Device._serial device = Some s → s ≠ "" →
       _config w ≠ [] →
       _config w !! i = Some (PDict _DeviceEntry d) →
       dict_get d (PStr _KEY_MODEL_ID) = PStr n →
       dict_get d (PStr _KEY_UNIT_ID) = PStr s →
       (∀ j d', (j < i)%nat → _config w !! j = Some (PDict _DeviceEntry d') →
          ¬ pair_stored (Device.wpid device) (Device._serial device) _KEY_WPID _KEY_SERIAL d'
          ∧ ¬ pair_stored (Some n) (Some s) _KEY_MODEL_ID _KEY_UNIT_ID d') →
       ∃ w', persister version device w = Ok (Some i, w'))
  ∧ (∀ w, _config w ≠ [] → Device.online device = false →
       (∀ j d, _config w !! j = Some (PDict _DeviceEntry d) →
          ¬ pair_stored (Device.wpid device) (Device._serial device) _KEY_WPID _KEY_SERIAL d
          ∧ dict_get d (PStr _KEY_MODEL_ID) ≠ PStr n) →
       persister version device w = Ok (None, w)).
Proof.
  intros Hzero Hname Hn.
  destruct (persister_ids_of_zero device n Hzero Hname) as [Hmodel Hunit].
  split; [|split].
  - intros w w' i Hp.
    apply persister_returns in Hp as (w1 & Hlt & ->).
    unfold _DeviceEntry_update. rewrite entry_at_mutate_lt by done.
    destruct (update_settles (Device.name device) (Device.wpid device) (Device.serial device)
                (persister_modelId device) (persister_unitId device) (entry_at i w1))
      as (_ & _ & _ & Hm & Hu). cbn zeta in Hm, Hu.
    split.
    + rewrite Hmodel in Hm |- *. exact (settled_get _ _ _ Hn Hm).
    + intros u s Hu1 Hu2 Hs1 Hs2.
      rewrite (Hunit u s Hu1 Hu2 Hs1) in Hu |- *. exact (settled_get _ _ _ Hs2 Hu).
  - intros u s w i d Hu1 Hu2 Hs1 Hs2 Hc Hi Hdm Hdu Hbefore.
    assert (Hfind : find_entry (Device.wpid device) (Device._serial device)
              (persister_modelId device) (persister_unitId device) (_config w) 0 = Some i).
    { apply find_entry_first. exists d. split; [done|].
      rewrite Hmodel, (Hunit u s Hu1 Hu2 Hs1). split.
      - apply match_spec. right. by exists n, s.
      - intros j d' Hj Hd'. destruct (Hbefore j d' Hj Hd') as [H1 H2].
        destruct (match_ _ _ _ _ d') eqn:E; [|done].
        apply match_spec in E as [E|E]; [by destruct H1|by destruct H2]. }
    destruct (find_entry_lookup _ _ _ _ _ _ Hfind) as (d0 & Hd0 & He & Ht).
    unfold persister. rewrite ensure_loaded_nonempty by done.
    cbn [mbind result_bind]. rewrite Hfind, He, Ht. by eexists.
  - intros w Hc Hoff Hnone.
    unfold persister. rewrite ensure_loaded_nonempty by done.
    cbn [mbind result_bind].
    rewrite (proj2 (find_entry_None _ _ _ _ (_config w) 0%nat)); [by rewrite Hoff|].
    intros j d Hd. destruct (Hnone j d Hd) as [H1 H2].
    destruct (match_ _ _ _ _ d) eqn:E; [|done].
    apply match_spec in E as [E|E]; [by destruct H1|].
    destruct E as (x & y & Hx & _ & _ & _ & Hdx & _).
    rewrite Hmodel in Hx. injection Hx as <-. by destruct H2.
Qed.

Lemma persister_stores_substituted_ids_witness :
  dict_get
    (entry_at 1 (_DeviceEntry_update (Some "Keyboard K1") None (Some "S123")
                   (Some "Keyboard K1") (Some "S123") 1
                   (set_config [PStr "1.1.11"; PDict _DeviceEntry []] empty_store)))
    (PStr _KEY_MODEL_ID) = PStr "Keyboard K1"
  ∧ ∃ w', persister "1.1.11" zero_keyboard keyboard_store = Ok (Some 2%nat, w').
Proof.
  destruct (persister_stores_substituted_ids "1.1.11" zero_keyboard "Keyboard K1"
              eq_refl eq_refl ltac:(discriminate)) as (Hstored & Hfound & _).
  split.
  - exact (proj1 (Hstored empty_store _ 1%nat eq_refl)).
  - refine (Hfound "1A2B3C4D" "S123" keyboard_store 2%nat _ eq_refl ltac:(discriminate)
              eq_refl ltac:(discriminate) ltac:(discriminate) eq_refl eq_refl eq_refl _).
    intros [|[|[|j]]] d' Hj Hd'; try lia; try discriminate.
    injection Hd' as <-. split.
    + by intros (x & y & Hx & _).
    + by intros (x & y & _ & _ & _ & _ & Hm & _).
Defined.
